(** * PyKNyX: link data service, multicast sockets and notifier

    Shallow embedding of
    - [src/pknyx/stack/layer2/l_dataService.py] (module [Link]),
    - [src/pknyx/stack/multicastSocket.py] (module [McastSock]),
    - [src/pyknyx/services/notifier.py] (module [Notif]),
    - the notifier's caller [src/pknyx/examples/4_alert/alert/alertFB.py]
      (module [Alert]).

    Python statements are run in a small effect monad [PyM]: a state
    (the objects the code mutates, plus a trace of the observable calls
    such as log records and listener calls) and an outcome that is either
    a normal value or a raised exception.  A bare [except:] catches every
    exception, so it is modelled by [try_except]. *)

From Stdlib Require Import ZArith String Bool Lia.
From stdpp Require Import base gmap strings list.

Open Scope Z_scope.

(* ================================================================== *)
(** ** Python effects *)

Module Py.

(** The exceptions that can reach the modelled code. *)
Inductive exc :=
| NameError (name : string)
| AttributeError (name : string)
| IOError (msg : string)
| TransceiverError (msg : string)   (* the spec's error kind of §7 *)
| NotifierValueError (msg : string)
| McastSockValueError (msg : string)
| OverflowError (msg : string)
| ValueError (msg : string)
| KeyboardInterrupt
| UserError (tag : nat).            (* raised by user code: listener, handler *)

Inductive outcome (A : Type) :=
| Ok (a : A)
| Raise (e : exc).
Arguments Ok {A} a.
Arguments Raise {A} e.

(** A statement run on state [S]. *)
Definition PyM (S A : Type) := S -> outcome A * S.

Definition ret {S A} (a : A) : PyM S A := fun s => (Ok a, s).

Definition bind {S A B} (m : PyM S A) (k : A -> PyM S B) : PyM S B :=
  fun s => match m s with
           | (Ok a, s') => k a s'
           | (Raise e, s') => (Raise e, s')
           end.

Definition raise {S A} (e : exc) : PyM S A := fun s => (Raise e, s).

(** [try: m  except: h] (a bare except catches everything). *)
Definition try_except {S A} (m : PyM S A) (h : exc -> PyM S A) : PyM S A :=
  fun s => match m s with
           | (Ok a, s') => (Ok a, s')
           | (Raise e, s') => h e s'
           end.

Definition gets {S A} (f : S -> A) : PyM S A := fun s => (Ok (f s), s).
Definition modify {S} (f : S -> S) : PyM S unit := fun s => (Ok tt, f s).

End Py.

Import Py.

Notation "x <- m ;; k" := (Py.bind m (fun x => k))
  (at level 100, m at level 99, right associativity).
Notation "m ;;; k" := (Py.bind m (fun _ => k))
  (at level 100, right associativity).

(* ================================================================== *)
(** ** Link data service ([l_dataService.py]) *)

Module Link.

(** Message codes of [CEMILData] (spec §3). *)
Definition MC_LDATA_REQ : Z := 0x11.
Definition MC_LDATA_CON : Z := 0x2E.
Definition MC_LDATA_IND : Z := 0x29.

Inductive prio := PrioSystem | PrioNormal | PrioUrgent | PrioLow.

(** Modelled from the spec: the cEMI frame object [CEMILData] (its class
    is not under src/), with the fields of spec §3 and §6 that the link
    layer reads; an individual address is its 16-bit raw value. *)
Record cemi := mkCEMI {
  messageCode : Z;
  priority : prio;
  sourceAddress : Z;
  destinationAddress : Z;
  hopCount : Z;
  npdu : list Z
}.

(** Modelled from the spec: [IndividualAddress.__ne__] (not under src/);
    two individual addresses differ when their 16-bit values differ. *)
Definition addr_ne (a b : Z) : bool := negb (Z.eqb a b).

(** Modelled from the spec: the [sourceAddress] setter of [CEMILData]
    writes the SA field and nothing else. *)
Definition set_sourceAddress (c : cemi) (a : Z) : cemi :=
  mkCEMI (messageCode c) (priority c) a (destinationAddress c)
         (hopCount c) (npdu c).

(** Modelled from the spec: [cEMI.frame], the encoded frame; it carries
    exactly the field values, so the record stands for it. *)
Definition frame (c : cemi) : cemi := c.

Inductive tr_result := TrNone | TrOk | TrTimeout.

(** Modelled from the spec: the [Transmission] envelope (its class is not
    under src/): a frame and a confirmation latch, waiting at creation. *)
Record transmission := mkTransmission {
  tr_frame : cemi;
  waitConfirm : bool;
  result : tr_result
}.

Definition Transmission (f : cemi) : transmission := mkTransmission f true TrNone.

(** The upward listener ([N_GroupDataListener]): an identity and what its
    [dataInd] does, return ([None]) or raise. *)
Record listener := mkListener {
  ldl_id : nat;
  ldl_dataInd : cemi -> option exc
}.

(** The service object.  A [Transmission] is a shared object: the
    outbound queue holds a reference (an index into [heap]) and the
    transmitter thread updates it while [dataReq] waits on it.
    Modelled from the spec: [PriorityQueue.add] (not under src/) appends
    the item to the FIFO of its priority; the queue is kept as one list
    of (item, priority) pairs in arrival order. *)
Record L_DataService := mkLDS {
  individualAddress : Z;
  inQueue : list cemi;
  outQueue : list (nat * prio);
  ldl : option listener;
  running : bool;
  heap : gmap nat transmission;
  next_ref : nat
}.

Definition set_inQueue (s : L_DataService) (q : list cemi) : L_DataService :=
  mkLDS (individualAddress s) q (outQueue s) (ldl s) (running s) (heap s) (next_ref s).

Definition set_running (s : L_DataService) (b : bool) : L_DataService :=
  mkLDS (individualAddress s) (inQueue s) (outQueue s) (ldl s) b (heap s) (next_ref s).

(** Observable effects: listener calls and log records that matter
    (debug and trace records are left out; they cannot raise). *)
Inductive laction :=
| LDataInd (lid : nat) (c : cemi)
| LWarning (msg : string)
| LException (where_ : string).

Definition LM (A : Type) := PyM (L_DataService * list laction) A.

Definition log (a : laction) : LM unit :=
  modify (fun st => (fst st, snd st ++ [a])).

(** [self._ldl.dataInd(cEMI)] *)
Definition dataInd (l : listener) (c : cemi) : LM unit :=
  log (LDataInd (ldl_id l) c) ;;;
  match ldl_dataInd l c with
  | None => ret tt
  | Some e => raise e
  end.

(** Body of the [try] in [L_DataService.run], once [cEMI] is removed. *)
Definition run_body (cEMI : cemi) : LM unit :=
  s <- gets fst ;;
  let srcAddr := sourceAddress cEMI in
  if addr_ne srcAddr (individualAddress s) then
    if Z.eqb (messageCode cEMI) MC_LDATA_IND then
      match ldl s with
      | None => log (LWarning "L_GroupDataService.run(): not listener defined")
      | Some l => dataInd l cEMI
      end
    else ret tt
  else ret tt.

(** One turn of the [while self._running] loop for a removed frame:
    [try: ... except: Logger().exception("L_DataService.run()")]. *)
Definition run_iteration (cEMI : cemi) : LM unit :=
  try_except (run_body cEMI) (fun _ => log (LException "L_DataService.run()")).

(** [_inQueue.remove()] pops the next frame; on an empty queue it blocks,
    which ends this (finite) unfolding of the loop.  [fuel] bounds the
    number of turns. *)
Fixpoint run_loop (fuel : nat) : LM unit :=
  match fuel with
  | O => ret tt
  | S n =>
      s <- gets fst ;;
      if running s then
        match inQueue s with
        | [] => ret tt
        | c :: q =>
            modify (fun st => (set_inQueue (fst st) q, snd st)) ;;;
            run_iteration c ;;;
            run_loop n
        end
      else ret tt
  end.

(** [L_DataService.run] *)
Definition run (fuel : nat) : LM unit :=
  modify (fun st => (set_running (fst st) true, snd st)) ;;;
  run_loop fuel.

(** [dataReq] up to the wait: set the source address, wrap the frame in a
    fresh [Transmission] and add it to the outbound queue (all under
    [transmission.acquire()]).  Returns the caller's (mutated) cEMI and
    the reference of the transmission. *)
Definition dataReq_enqueue (cEMI : cemi) (s : L_DataService)
  : cemi * nat * L_DataService :=
  let cEMI' := set_sourceAddress cEMI (individualAddress s) in
  let prio := priority cEMI' in
  let t := Transmission (frame cEMI') in
  let r := next_ref s in
  (cEMI', r,
   mkLDS (individualAddress s) (inQueue s) (outQueue s ++ [(r, prio)])
         (ldl s) (running s) (<[r := t]> (heap s)) (S r)).

(** [while transmission.waitConfirm: transmission.wait()].  Between two
    wake-ups the other threads (the transmitter) act on the service;
    [env] lists their effects in order.  Running out of [env] while the
    latch is still set means [dataReq] is still blocked ([None]).  The
    local reference keeps the transmission alive, so the [None] case of
    the lookup does not arise in the program. *)
Fixpoint wait_loop (r : nat) (env : list (L_DataService -> L_DataService))
    (s : L_DataService) : option L_DataService :=
  match heap s !! r with
  | Some t =>
      if waitConfirm t then
        match env with
        | [] => None
        | f :: env' => wait_loop r env' (f s)
        end
      else Some s
  | None => None
  end.

(** [L_DataService.dataReq]: [Some (cEMI, transmission.result, state)]
    once it returns. *)
Definition dataReq (cEMI : cemi) (env : list (L_DataService -> L_DataService))
    (s : L_DataService) : option (cemi * tr_result * L_DataService) :=
  let '(cEMI', r, s1) := dataReq_enqueue cEMI s in
  match wait_loop r env s1 with
  | Some s2 =>
      match heap s2 !! r with
      | Some t => Some (cEMI', result t, s2)
      | None => None
      end
  | None => None
  end.

(** The service after the first [k] actions of the other threads. *)
Definition env_run (env : list (L_DataService -> L_DataService)) (k : nat)
    (s : L_DataService) : L_DataService :=
  fold_left (fun s f => f s) (take k env) s.

(** [L_DataService.__init__(priorityDistribution, individualAddress)]:
    empty queues, no listener, not running. *)
Definition new_L_DataService (individualAddress : Z) : L_DataService :=
  mkLDS individualAddress [] [] None false ∅ 0.

(** [L_DataService.stop] *)
Definition stop : LM unit :=
  modify (fun st => (set_running (fst st) false, snd st)).

(** The upward calls recorded in a trace. *)
Definition ind_calls (tr : list laction) : list laction :=
  List.filter (fun a => match a with LDataInd _ _ => true | _ => false end) tr.

(** The frames of a drained sequence that the worker hands up: foreign
    source and [L_Data.ind]. *)
Definition delivered (ia : Z) (q : list cemi) : list cemi :=
  List.filter (fun c => addr_ne (sourceAddress c) ia
                        && Z.eqb (messageCode c) MC_LDATA_IND) q.

(** The records one turn of the worker adds, with listener [l] set, for a
    frame [c] taken from the queue of a service whose address is [ia]. *)
Definition turn_trace (ia : Z) (l : listener) (c : cemi) : list laction :=
  if addr_ne (sourceAddress c) ia && Z.eqb (messageCode c) MC_LDATA_IND
  then LDataInd (ldl_id l) c ::
         match ldl_dataInd l c with
         | None => []
         | Some _ => [LException "L_DataService.run()"]
         end
  else [].

End Link.

(* ================================================================== *)
(** ** UDP multicast sockets ([multicastSocket.py]) *)

Module McastSock.

Inductive level := SOL_SOCKET | SOL_IP | IPPROTO_IP.

Inductive optname :=
| SO_REUSEADDR | SO_REUSEPORT | IP_MULTICAST_TTL | IP_MULTICAST_LOOP
| IP_MULTICAST_IF | IP_ADD_MEMBERSHIP.

Definition level_eqb (a b : level) : bool :=
  match a, b with
  | SOL_SOCKET, SOL_SOCKET | SOL_IP, SOL_IP | IPPROTO_IP, IPPROTO_IP => true
  | _, _ => false
  end.

Definition optname_eqb (a b : optname) : bool :=
  match a, b with
  | SO_REUSEADDR, SO_REUSEADDR | SO_REUSEPORT, SO_REUSEPORT
  | IP_MULTICAST_TTL, IP_MULTICAST_TTL | IP_MULTICAST_LOOP, IP_MULTICAST_LOOP
  | IP_MULTICAST_IF, IP_MULTICAST_IF | IP_ADD_MEMBERSHIP, IP_ADD_MEMBERSHIP => true
  | _, _ => false
  end.

(** The system calls made on the socket, and the log records. *)
Inductive sock_call :=
| SetSockOpt (lvl : level) (opt : optname) (value : Z)
| Bind (addr : string) (port : Z)
| SendTo (data : list Z) (addr : string) (port : Z)
| LogException (where_ : string).

(** The socket object: its Python attributes and the calls made on it. *)
Record msocket := mkSock {
  _localAddr : string;
  _localPort : Z;
  _ttl : Z;
  _loop : Z;
  _mcastAddr : string;
  _mcastPort : Z;
  calls : list sock_call
}.

Definition SM (A : Type) := PyM msocket A.

Definition call (c : sock_call) : SM unit :=
  modify (fun s => mkSock (_localAddr s) (_localPort s) (_ttl s) (_loop s)
                          (_mcastAddr s) (_mcastPort s) (calls s ++ [c])).

(** What the host decides, the rest of the socket module's behaviour
    being written out below: whether [socket.SO_REUSEPORT] exists; what
    the [bind] system call does for an address and an in-range port
    ([None] when it succeeds; otherwise the [OSError] it raises:
    [EADDRNOTAVAIL] for an address that is not local, [EADDRINUSE], a
    name that does not resolve); what [setsockopt] does with a byte-string
    value (an interface address that is not local, a group the host
    cannot join).  Creating the socket itself is taken to succeed. *)
Record system := mkSystem {
  sys_reuseport : bool;
  sys_bind : string -> Z -> option exc;
  sys_setsockopt_bytes : optname -> list Z -> option exc
}.

(** The bounds of a C [int]: the socket module converts the integer
    arguments of [setsockopt] and the port of an address with the ["i"]
    format, which raises [OverflowError] outside them. *)
Definition INT_MIN : Z := -2147483648.
Definition INT_MAX : Z := 2147483647.

Definition c_int_error (v : Z) : option exc :=
  if v <? INT_MIN then Some (OverflowError "signed integer is less than minimum")
  else if INT_MAX <? v then Some (OverflowError "signed integer is greater than maximum")
  else None.

Definition int_ok (v : Z) : bool :=
  match c_int_error v with None => true | Some _ => false end.

(** The values Linux ([ip_setsockopt]) accepts for [IP_MULTICAST_TTL]
    (-1 stands for the default); any other value is refused with
    [EINVAL].  [SO_REUSEADDR], [SO_REUSEPORT] and [IP_MULTICAST_LOOP]
    accept any [int]. *)
Definition ttl_ok (v : Z) : bool := (-1 <=? v) && (v <=? 255).

(** [self.setsockopt(level, opt, value)] with an integer value: the lookup
    of [socket.SO_REUSEPORT] raises [AttributeError] when the system lacks
    it, the value is converted to a C [int], then the kernel checks it.
    Only a call that succeeds is recorded. *)
Definition setsockopt (sys : system) (lvl : level) (opt : optname) (v : Z)
  : SM unit :=
  if optname_eqb opt SO_REUSEPORT && negb (sys_reuseport sys)
  then raise (AttributeError "SO_REUSEPORT")
  else match c_int_error v with
       | Some e => raise e
       | None =>
           if optname_eqb opt IP_MULTICAST_TTL && negb (ttl_ok v)
           then raise (IOError "[Errno 22] Invalid argument")
           else call (SetSockOpt lvl opt v)
       end.

(** The exception [self.bind((addr, port))] raises, if any: the port is
    converted to a C [int] and must lie in 0..65535, then the address is
    resolved and the system call made. *)
Definition bind_error (sys : system) (addr : string) (port : Z) : option exc :=
  match c_int_error port with
  | Some e => Some e
  | None =>
      if (port <? 0) || (65535 <? port)
      then Some (OverflowError "bind(): port must be 0-65535.")
      else sys_bind sys addr port
  end.

(** [self.bind((addr, port))] *)
Definition sock_bind (sys : system) (addr : string) (port : Z) : SM unit :=
  match bind_error sys addr port with
  | Some e => raise e
  | None => call (Bind addr port)
  end.

(** [MulticastSocketBase.__init__]; [bind_] is the subclass's [_bind]. *)
Definition MulticastSocketBase_init (sys : system) (bind_ : SM unit)
    (localAddr : string) (localPort ttl loop : Z) : SM unit :=
  modify (fun s => mkSock localAddr localPort ttl loop
                          (_mcastAddr s) (_mcastPort s) (calls s)) ;;;
  setsockopt sys SOL_SOCKET SO_REUSEADDR 1 ;;;
  try_except (setsockopt sys SOL_SOCKET SO_REUSEPORT 1)
    (fun _ => call (LogException
       "MulticastSocketBase.__init__(): system doesn't support SO_REUSEPORT")) ;;;
  setsockopt sys SOL_IP IP_MULTICAST_TTL ttl ;;;
  setsockopt sys SOL_IP IP_MULTICAST_LOOP loop ;;;
  bind_.

(** [MulticastSocketTransmit._bind]: [self.bind((self._localAddr,
    self._localPort))]. *)
Definition transmit_bind (sys : system) : SM unit :=
  s <- gets id ;; sock_bind sys (_localAddr s) (_localPort s).

(** Python default arguments: [None] stands for an omitted argument. *)
Definition default (d : Z) (o : option Z) : Z :=
  match o with Some v => v | None => d end.

(** [MulticastSocketTransmit.__init__(localAddr, localPort, mcastAddr,
    mcastPort, ttl=32, loop=1)] *)
Definition MulticastSocketTransmit_init (sys : system)
    (localAddr : string) (localPort : Z) (mcastAddr : string) (mcastPort : Z)
    (ttl loop : option Z) : SM unit :=
  MulticastSocketBase_init sys (transmit_bind sys) localAddr localPort
    (default 32 ttl) (default 1 loop) ;;;
  modify (fun s => mkSock (_localAddr s) (_localPort s) (_ttl s) (_loop s)
                          mcastAddr mcastPort (calls s)).

(** A freshly created socket object. *)
Definition fresh_socket : msocket := mkSock "" 0 0 0 "" 0 [].

(** The options the base initialisation sets, in order, when the TTL and
    loop values are accepted: the [SO_REUSEPORT] attempt is either a call
    or, on a system without it, an exception record. *)
Definition base_calls (sys : system) (ttl loop : Z) : list sock_call :=
  [SetSockOpt SOL_SOCKET SO_REUSEADDR 1;
   if sys_reuseport sys then SetSockOpt SOL_SOCKET SO_REUSEPORT 1
   else LogException
          "MulticastSocketBase.__init__(): system doesn't support SO_REUSEPORT";
   SetSockOpt SOL_IP IP_MULTICAST_TTL ttl;
   SetSockOpt SOL_IP IP_MULTICAST_LOOP loop].

(** A host that supports [SO_REUSEPORT] and on which every bind and
    byte-string option succeeds. *)
Definition permissive_system : system :=
  mkSystem true (fun _ _ => None) (fun _ _ => None).

(** The last value given to an option, if any. *)
Definition sockopt_value (cs : list sock_call) (lvl : level) (opt : optname)
  : option Z :=
  fold_left (fun acc c =>
      match c with
      | SetSockOpt l o v =>
          if level_eqb l lvl && optname_eqb o opt then Some v else acc
      | _ => acc
      end) cs None.

(** [MulticastSocketTransmit.transmit(data)]; [sent] is what [sendto]
    returns (the number of bytes sent). *)
Definition transmit (data : list Z) (sent : Z) : SM unit :=
  s <- gets id ;;
  call (SendTo data (_mcastAddr s) (_mcastPort s)) ;;;
  let l := sent in
  if (0 <? l) && (l <? Z.of_nat (length data))
  then raise (IOError "partial transmit: %d of %d to %s")
  else ret tt.

(** *** [MulticastSocketReceive] *)

(** The calls the receive socket adds after the base initialisation:
    options whose value is a byte string, and the timeout. *)
Inductive recv_call :=
| SetSockOptBytes (lvl : level) (opt : optname) (value : list Z)
| SetTimeout (t : Z).

Definition RM (A : Type) := PyM (msocket * list recv_call) A.

Definition lift {A} (m : SM A) : RM A :=
  fun st => let '(r, s') := m (fst st) in (r, (s', snd st)).

Definition rcall (c : recv_call) : RM unit :=
  modify (fun st => (fst st, snd st ++ [c])).

(** [MulticastSocketReceive._bind]: [self.bind(("", self._localPort))]. *)
Definition receive_bind (sys : system) : SM unit :=
  s <- gets id ;; sock_bind sys "" (_localPort s).

(** [self.setsockopt(level, opt, value)] with a byte-string value. *)
Definition setsockopt_bytes (sys : system) (lvl : level) (opt : optname)
    (v : list Z) : RM unit :=
  match sys_setsockopt_bytes sys opt v with
  | Some e => raise e
  | None => rcall (SetSockOptBytes lvl opt v)
  end.

(** [self.settimeout(timeout)]: a negative timeout is refused. *)
Definition settimeout (t : Z) : RM unit :=
  if t <? 0 then raise (ValueError "Timeout value out of range")
  else rcall (SetTimeout t).

(** [six.byte2int(packed) in range(224, 240)] *)
Definition is_multicast (packed : list Z) : bool :=
  match packed with
  | b :: _ => (224 <=? b) && (b <? 240)
  | [] => false
  end.

Section Receive.

(** [socket.inet_aton], the C library's address parser: the packed
    4-byte address, or [None] when it raises [OSError]. *)
Variable inet_aton : string -> option (list Z).

Definition aton (a : string) : RM (list Z) :=
  match inet_aton a with
  | Some b => ret b
  | None => raise (IOError "illegal IP address string passed to inet_aton")
  end.

(** [MulticastSocketReceive.__init__(localAddr, mcastAddr, mcastPort,
    timeout=1, ttl=32, loop=1)]; [None] stands for an omitted argument.
    [struct.pack("=4sl", inet_aton(mcastAddr), INADDR_ANY)] is the packed
    group address followed by four zero bytes. *)
Definition MulticastSocketReceive_init (sys : system)
    (localAddr mcastAddr : string) (mcastPort : Z)
    (timeout ttl loop : option Z) : RM unit :=
  packed <- aton mcastAddr ;;
  if negb (is_multicast packed) then
    raise (McastSockValueError "address is not a multicast destination")
  else
    lift (modify (fun s => mkSock (_localAddr s) (_localPort s) (_ttl s) (_loop s)
                                  mcastAddr (_mcastPort s) (calls s))) ;;;
    lift (MulticastSocketBase_init sys (receive_bind sys) localAddr mcastPort
            (default 32 ttl) (default 1 loop)) ;;;
    s <- gets fst ;;
    la <- aton (_localAddr s) ;;
    setsockopt_bytes sys SOL_IP IP_MULTICAST_IF la ;;;
    group <- aton mcastAddr ;;
    setsockopt_bytes sys IPPROTO_IP IP_ADD_MEMBERSHIP (group ++ [0; 0; 0; 0]) ;;;
    settimeout (default 1 timeout).

End Receive.

End McastSock.

(* ================================================================== *)
(** ** Notifier ([notifier.py]) *)

Module Notif.

(** Datapoint values (a DPT value: a number or a named state). *)
Inductive pyvalue := PyInt (z : Z) | PyStr (s : string).

(** Python's [!=] on two values. *)
Definition py_ne (a b : pyvalue) : bool :=
  match a, b with
  | PyInt x, PyInt y => negb (Z.eqb x y)
  | PyStr x, PyStr y => negb (String.eqb x y)
  | _, _ => true
  end.

(** A function object: its identity and its [__name__]. *)
Record pyfunc := mkFunc { func_id : nat; func_name_ : string }.

(** Python's [is] on function objects. *)
Definition py_is (f g : pyfunc) : bool := Nat.eqb (func_id f) (func_id g).

(** A class attribute: a function (a method once looked up on an
    instance) or any other value. *)
Inductive attr := AFunc (f : pyfunc) | AData.

(** An instance: its identity (dict key, [obj in d]), its [name] and the
    attributes of its class, first match wins. *)
Record pyobj := mkObj {
  obj_id : nat;
  obj_name : string;
  obj_class : list (string * attr)
}.

Record boundmethod := mkMeth { meth_self_ : nat; meth_func_ : pyfunc }.

Inductive attrval := VMethod (m : boundmethod) | VData.

Fixpoint class_lookup (n : string) (cls : list (string * attr)) : option attr :=
  match cls with
  | [] => None
  | (n', a) :: rest => if String.eqb n n' then Some a else class_lookup n rest
  end.

(** [getattr(obj, name, None)]: a function attribute comes back bound. *)
Definition getattr (o : pyobj) (n : string) : option attrval :=
  match class_lookup n (obj_class o) with
  | Some (AFunc f) => Some (VMethod (mkMeth (obj_id o) f))
  | Some AData => Some VData
  | None => None
  end.

(** Modelled from the spec: [func_name] of [pyknyx.common.utils] (not
    under src/) gives the name under which the handler is looked up on
    the instance (spec §9), i.e. [__name__]. *)
Definition func_name (f : pyfunc) : string := func_name_ f.

(** The datapoint handler record [(method, condition, thread)] and a
    pending registration [(type_, func, (dp, condition, thread))]. *)
Definition job : Type := boundmethod * string * bool.
Definition pending : Type := string * pyfunc * (string * string * bool).

(** The event dict passed to a handler. *)
Record event := mkEvent {
  ev_name : string;
  ev_dp : string;
  ev_oldValue : pyvalue;
  ev_newValue : pyvalue;
  ev_condition : string;
  ev_thread : bool
}.

Inductive naction :=
| NCall (m : boundmethod) (ev : event)     (* [method(event)] entered *)
| NLogExc (where_ : string).               (* [logger.exception(...)] *)

(** The [Notifier] singleton. *)
Record notifier := mkNotifier {
  _pendingFuncs : list pending;
  _datapointJobs : gmap nat (gmap string (list job));
  ntrace : list naction
}.

Definition NM (A : Type) := PyM notifier A.

Definition nlog (a : naction) : NM unit :=
  modify (fun st => mkNotifier (_pendingFuncs st) (_datapointJobs st) (ntrace st ++ [a])).

(** What a handler does when called: return ([None]) or raise. *)
Definition behaviour : Type := boundmethod -> event -> option exc.

(** [Notifier._execute(method, event)] *)
Definition _execute (beh : behaviour) (method : boundmethod) (ev : event) : NM unit :=
  try_except
    (nlog (NCall method ev) ;;;
     match beh method ev with None => ret tt | Some e => raise e end)
    (fun _ => nlog (NLogExc "Notifier._execute()")).

(** The names bound at module level in [notifier.py] (its imports and
    its own definitions); [thread] is neither among them nor a builtin. *)
Definition notifier_globals : list string :=
  ["six"; "PyKNyXValueError"; "reprStr"; "func_name"; "meth_name";
   "meth_self"; "meth_func"; "Singleton"; "logging"; "logger"; "scheduler";
   "NotifierValueError"; "Notifier"].

(** Evaluating a global name. *)
Definition lookup_global (n : string) : NM unit :=
  if existsb (String.eqb n) notifier_globals then ret tt
  else raise (NameError n).

(** [thread.start_new_thread(self._execute, (method, event))]: the name
    [thread] is evaluated first; the new worker runs [_execute] (its
    effects are appended; interleaving is not modelled). *)
Definition start_new_thread (beh : behaviour) (method : boundmethod) (ev : event)
  : NM unit :=
  lookup_global "thread" ;;; _execute beh method ev.

(** The [for method, condition, thread_ in ...] loop of
    [datapointNotify]. *)
Fixpoint notify_loop (beh : behaviour) (dp : string) (oldValue newValue : pyvalue)
    (jobs : list job) : NM unit :=
  match jobs with
  | [] => ret tt
  | (method, condition, thread_) :: rest =>
      (if (py_ne oldValue newValue && String.eqb condition "change")
          || String.eqb condition "always"
       then
         try_except
           (let ev := mkEvent "datapoint" dp oldValue newValue condition thread_ in
            if thread_ then start_new_thread beh method ev
            else _execute beh method ev)
           (fun _ => nlog (NLogExc "Notifier.datapointNotify()"))
       else ret tt) ;;;
      notify_loop beh dp oldValue newValue rest
  end.

(** [Notifier.datapointNotify(obj, dp, oldValue, newValue)] *)
Definition datapointNotify (beh : behaviour) (obj : pyobj) (dp : string)
    (oldValue newValue : pyvalue) : NM unit :=
  jobs <- gets _datapointJobs ;;
  match jobs !! obj_id obj with
  | Some d =>
      match d !! dp with
      | Some l => notify_loop beh dp oldValue newValue l
      | None => ret tt
      end
  | None => ret tt
  end.

(** [Notifier.addDatapointJob(func, dp, condition, thread)] *)
Definition addDatapointJob (func : pyfunc) (dp condition : string) (thread : bool)
  : NM unit :=
  if negb (String.eqb condition "change" || String.eqb condition "always")
  then raise (NotifierValueError "invalid condition")
  else modify (fun st => mkNotifier
                 (_pendingFuncs st ++ [("datapoint", func, (dp, condition, thread))])
                 (_datapointJobs st) (ntrace st)).

(** Modelled from the spec: [meth_name], [meth_self] and [meth_func] of
    [pyknyx.common.utils] (not under src/) read a bound method's name,
    instance and underlying function (spec §4.8: the handler is resolved
    to a bound callable); on any other value the attribute is missing. *)
Definition as_method (v : attrval) (what : string) : NM boundmethod :=
  match v with
  | VMethod m => ret m
  | VData => raise (AttributeError what)
  end.

(** [self._datapointJobs[obj][dp].append(j)], with the two [KeyError]
    fallbacks. *)
Definition add_job (jobs : gmap nat (gmap string (list job))) (oid : nat)
    (dp : string) (j : job) : gmap nat (gmap string (list job)) :=
  match jobs !! oid with
  | Some d =>
      match d !! dp with
      | Some l => <[oid := <[dp := l ++ [j]]> d]> jobs
      | None => <[oid := <[dp := [j]]> d]> jobs
      end
  | None => <[oid := {[dp := [j]]}]> jobs
  end.

(** The loop of [Notifier.doRegisterJobs(obj)]. *)
Fixpoint doRegister_loop (obj : pyobj) (ps : list pending) : NM unit :=
  match ps with
  | [] => ret tt
  | (type_, func, args) :: rest =>
      (match getattr obj (func_name func) with
       | None => ret tt
       | Some method =>
           (* the debug record evaluates meth_name / meth_self *)
           _ <- as_method method "__name__" ;;
           m <- as_method method "__func__" ;;
           if py_is (meth_func_ m) func then
             if String.eqb type_ "datapoint" then
               let '(dp, condition, thread) := args in
               modify (fun st => mkNotifier (_pendingFuncs st)
                          (add_job (_datapointJobs st) (obj_id obj) dp
                                   (m, condition, thread))
                          (ntrace st))
             else ret tt
           else ret tt
       end) ;;;
      doRegister_loop obj rest
  end.

(** [Notifier.doRegisterJobs(obj)] *)
Definition doRegisterJobs (obj : pyobj) : NM unit :=
  ps <- gets _pendingFuncs ;; doRegister_loop obj ps.

(** *** Observations on traces, used to state properties *)

(** The handler condition tested by [datapointNotify]. *)
Definition fires (oldValue newValue : pyvalue) (condition : string) : bool :=
  (py_ne oldValue newValue && String.eqb condition "change")
  || String.eqb condition "always".

(** The records one handler entry adds to the trace in [notify_loop]. *)
Definition job_trace (beh : behaviour) (dp : string) (oldValue newValue : pyvalue)
    (j : job) : list naction :=
  let '(method, condition, thread_) := j in
  if fires oldValue newValue condition then
    let ev := mkEvent "datapoint" dp oldValue newValue condition thread_ in
    if thread_ then [NLogExc "Notifier.datapointNotify()"]
    else NCall method ev ::
           match beh method ev with
           | None => []
           | Some _ => [NLogExc "Notifier._execute()"]
           end
  else [].

(** The handler calls recorded in a trace. *)
Definition handler_calls (tr : list naction) : list (boundmethod * event) :=
  flat_map (fun a => match a with NCall m ev => [(m, ev)] | _ => [] end) tr.

(** The number of records logged by [_execute]. *)
Definition exec_logs (tr : list naction) : nat :=
  length (List.filter (fun a => match a with
                           | NLogExc w => String.eqb w "Notifier._execute()"
                           | _ => false
                           end) tr).

(** The number of recorded calls whose handler raised. *)
Definition raising_calls (beh : behaviour) (tr : list naction) : nat :=
  length (List.filter (fun me => match beh (fst me) (snd me) with
                            | Some _ => true
                            | None => false
                            end) (handler_calls tr)).

(** A handler entry registered for [obj] under [dp] is a method of [obj]
    whose function is identical to a pending datapoint registration for
    [dp], with the same condition and thread flag, found on [obj] under
    that function's name. *)
Definition job_ok (obj : pyobj) (ps : list pending) (dp : string) (j : job) : Prop :=
  let '(m, condition, thread) := j in
  meth_self_ m = obj_id obj /\
  exists f, In ("datapoint", f, (dp, condition, thread)) ps /\
            py_is (meth_func_ m) f = true /\
            getattr obj (func_name f) = Some (VMethod m).

Definition jobs_ok (obj : pyobj) (ps : list pending)
    (jobs : gmap nat (gmap string (list job))) : Prop :=
  forall d dp l, jobs !! obj_id obj = Some d -> d !! dp = Some l ->
    Forall (job_ok obj ps dp) l.

(** What [doRegisterJobs obj] keeps, from the table [jobs0] it started on. *)
Definition register_inv (obj : pyobj) (ps : list pending)
    (jobs0 : gmap nat (gmap string (list job))) (st : notifier) : Prop :=
  _pendingFuncs st = ps /\
  jobs_ok obj ps (_datapointJobs st) /\
  (forall k, k <> obj_id obj -> _datapointJobs st !! k = jobs0 !! k).

(** [Notifier.datapoint(dp, *args, **kwargs)] applied to [func]: the
    inner [decorated(func)] registers [func] and returns it unwrapped.
    [None] stands for an omitted argument of [addDatapointJob]
    ([condition="change"], [thread=False]). *)
Definition datapoint (dp : string) (condition : option string) (thread : option bool)
    (func : pyfunc) : NM pyfunc :=
  addDatapointJob func dp
    (match condition with Some c => c | None => "change" end)
    (match thread with Some t => t | None => false end) ;;;
  ret func.

(** The handler list of [oid] under [dp] in a table; [[]] when either key
    is missing. *)
Definition jobs_of (jobs : gmap nat (gmap string (list job))) (oid : nat)
    (dp : string) : list job :=
  match jobs !! oid with
  | Some d => match d !! dp with Some l => l | None => [] end
  | None => []
  end.

(** The handler entries that the pending registrations [ps] give [obj]
    under [dp], in pending order. *)
Definition registered (obj : pyobj) (ps : list pending) (dp : string) : list job :=
  flat_map (fun p : pending =>
    let '(type_, func, (dp', condition, thread)) := p in
    match getattr obj (func_name func) with
    | Some (VMethod m) =>
        if py_is (meth_func_ m) func && String.eqb type_ "datapoint"
           && String.eqb dp' dp
        then [(m, condition, thread)] else []
    | _ => []
    end) ps.

(** No pending function is named like a non-method attribute of [obj]. *)
Definition no_data_clash (obj : pyobj) (ps : list pending) : Prop :=
  Forall (fun p : pending => getattr obj (func_name p.1.2) <> Some VData) ps.

End Notif.

(* ================================================================== *)
(** ** The alert example ([examples/4_alert/alert/alertFB.py]) *)

Module Alert.
Import Notif.

(** The function objects defined in the body of [AlertFB] (their
    identities are arbitrary but distinct). *)
Definition _sendEmail : pyfunc := mkFunc 100 "_sendEmail".
Definition tempChanged : pyfunc := mkFunc 101 "tempChanged".
Definition doorChanged : pyfunc := mkFunc 102 "doorChanged".

(** The decorators run by the class body ([notify] of [pknyx.api], not
    under src/, is the [Notifier] singleton):
    [@notify.datapoint(dp="temp_1")]
    over [@notify.datapoint(dp="temp_2")] applies the inner one first; the
    names [tempChanged] and [doorChanged] are bound to what the outer
    decorators return. *)
Definition AlertFB_body : NM (pyfunc * pyfunc) :=
  t2 <- datapoint "temp_2" (Some "change") None tempChanged ;;
  t1 <- datapoint "temp_1" (Some "change") None t2 ;;
  d1 <- datapoint "door_1" (Some "change") None doorChanged ;;
  ret (t1, d1).

(** The attributes of class [AlertFB]: its own, bound by the body to
    [tc] and [dc] for the decorated methods, then the ones inherited from
    [FunctionalBlock] ([base]). *)
Definition AlertFB_class (tc dc : pyfunc) (base : list (string * attr))
  : list (string * attr) :=
  [("DP_01", AData); ("DP_02", AData); ("DP_03", AData);
   ("GO_01", AData); ("GO_02", AData); ("GO_03", AData); ("DESC", AData);
   ("_sendEmail", AFunc _sendEmail); ("tempChanged", AFunc tc);
   ("doorChanged", AFunc dc)] ++ base.

End Alert.

(* ================================================================== *)
(** * Link data service: properties *)

Module LinkFacts.
Import Link.

Example run_iteration_foreign_ind :
  run_iteration (mkCEMI MC_LDATA_IND PrioLow 0x1102 0x0A0B 6 [0; 0x80])
    (mkLDS 0x1101 [] [] (Some (mkListener 7 (fun _ => None))) true ∅ 0, [])
  = (Ok tt, (mkLDS 0x1101 [] [] (Some (mkListener 7 (fun _ => None))) true ∅ 0,
             [LDataInd 7 (mkCEMI MC_LDATA_IND PrioLow 0x1102 0x0A0B 6 [0; 0x80])])).
Proof. reflexivity. Qed.

(** One turn of the worker never raises and never changes the service. *)
Lemma run_iteration_total (s : L_DataService) (tr : list laction) (c : cemi) :
  exists tr', run_iteration c (s, tr) = (Ok tt, (s, tr')).
Proof.
  unfold run_iteration, try_except, run_body, Py.bind, gets, log, modify,
    dataInd, ret, raise; simpl.
  destruct (addr_ne _ _); [|eauto].
  destruct (Z.eqb _ _); [|eauto].
  destruct (ldl s) as [l|]; simpl; [|eauto].
  destruct (ldl_dataInd l c); simpl; eauto.
Qed.

Lemma set_inQueue_twice (s : L_DataService) (q q' : list cemi) :
  set_inQueue (set_inQueue s q) q' = set_inQueue s q'.
Proof. destruct s; reflexivity. Qed.

(** While [running] holds, the worker drains every queued frame and ends
    normally, whatever the listener does. *)
Lemma run_loop_drains (n : nat) (s : L_DataService) (tr : list laction) :
  running s = true -> (length (inQueue s) <= n)%nat ->
  exists tr', run_loop n (s, tr) = (Ok tt, (set_inQueue s [], tr')).
Proof.
  revert s tr. induction n as [|n IH]; intros s tr Hr Hl.
  - destruct (inQueue s) eqn:E; simpl in Hl; [|lia].
    exists tr. destruct s; simpl in *; subst; reflexivity.
  - simpl. unfold Py.bind at 1, gets. simpl. rewrite Hr.
    destruct (inQueue s) as [|c q] eqn:E.
    + exists tr. destruct s; simpl in *; subst; reflexivity.
    + unfold Py.bind at 1, modify. simpl.
      destruct (run_iteration_total (set_inQueue s q) tr c) as [tr1 H1].
      unfold Py.bind at 1. rewrite H1.
      destruct (IH (set_inQueue s q) tr1) as [tr2 H2].
      { destruct s; exact Hr. }
      { simpl in Hl. destruct s; simpl in *; lia. }
      rewrite H2, set_inQueue_twice. eauto.
Qed.

(** C1.  A frame whose source is the service's own individual address is
    dropped: whatever its message code, the turn of the worker makes no
    call (in particular no [dataInd]), logs nothing and leaves the service
    unchanged. *)
Theorem run_drops_own_frames (s : L_DataService) (tr : list laction) (c : cemi) :
  sourceAddress c = individualAddress s ->
  run_iteration c (s, tr) = (Ok tt, (s, tr)).
Proof.
  intros H. unfold run_iteration, try_except, run_body, Py.bind, gets, addr_ne.
  simpl. rewrite H, Z.eqb_refl. reflexivity.
Qed.

Lemma run_drops_own_frames_witness :
  sourceAddress (mkCEMI MC_LDATA_IND PrioLow 0x1101 0x0A0B 6 [])
    = individualAddress (mkLDS 0x1101 [] [] (Some (mkListener 7 (fun _ => None))) true ∅ 0)
  /\ run_iteration (mkCEMI MC_LDATA_IND PrioLow 0x1101 0x0A0B 6 [])
       (mkLDS 0x1101 [] [] (Some (mkListener 7 (fun _ => None))) true ∅ 0, [])
     = (Ok tt, (mkLDS 0x1101 [] [] (Some (mkListener 7 (fun _ => None))) true ∅ 0, [])).
Proof.
  split; [reflexivity|].
  apply run_drops_own_frames. reflexivity.
Defined.

(** C2.  With a listener set, a frame from a foreign source reaches the
    listener's [dataInd] exactly when its message code is [L_Data.ind]
    (followed by an exception record when [dataInd] raises); any other
    code (e.g. [L_Data.con]) produces no call at all.  The service state,
    including the outbound queue and every pending [Transmission], is
    left unchanged: no frame is matched against a transmission. *)
Theorem run_delivers_only_ind (s : L_DataService) (tr : list laction)
    (c : cemi) (l : listener) :
  ldl s = Some l ->
  sourceAddress c <> individualAddress s ->
  run_iteration c (s, tr) =
    (Ok tt, (s, tr ++
      (if Z.eqb (messageCode c) MC_LDATA_IND
       then LDataInd (ldl_id l) c ::
              match ldl_dataInd l c with
              | None => []
              | Some _ => [LException "L_DataService.run()"]
              end
       else []))).
Proof.
  intros Hl Hne.
  unfold run_iteration, try_except, run_body, Py.bind, gets, addr_ne.
  simpl. apply Z.eqb_neq in Hne. rewrite Hne. simpl.
  destruct (Z.eqb (messageCode c) MC_LDATA_IND).
  - rewrite Hl. unfold dataInd, Py.bind, log, modify, ret, raise. simpl.
    destruct (ldl_dataInd l c); simpl; rewrite ?app_nil_r, <- ?app_assoc; reflexivity.
  - rewrite app_nil_r. reflexivity.
Qed.

Lemma run_delivers_only_ind_witness :
  run_iteration (mkCEMI MC_LDATA_CON PrioLow 0x1102 0x0A0B 6 [])
       (mkLDS 0x1101 [] [] (Some (mkListener 7 (fun _ => None))) true ∅ 0, [])
  = (Ok tt, (mkLDS 0x1101 [] [] (Some (mkListener 7 (fun _ => None))) true ∅ 0, [])).
Proof.
  rewrite (run_delivers_only_ind _ _ _ (mkListener 7 (fun _ => None)));
    [reflexivity | reflexivity | discriminate].
Defined.

(** C9.  Without a listener, a foreign [L_Data.ind] frame only produces
    the warning record and is dropped, without an exception; and while
    [running] holds the worker loop processes every queued frame and ends
    normally, whatever the listener (if any) does: an exception never
    ends the loop. *)
Theorem run_without_listener (s : L_DataService) (tr : list laction) (c : cemi) :
  ldl s = None ->
  sourceAddress c <> individualAddress s ->
  messageCode c = MC_LDATA_IND ->
  run_iteration c (s, tr)
    = (Ok tt, (s, tr ++ [LWarning "L_GroupDataService.run(): not listener defined"]))
  /\ (forall (n : nat) (s' : L_DataService) (tr' : list laction),
        running s' = true -> (length (inQueue s') <= n)%nat ->
        exists tr'', run_loop n (s', tr') = (Ok tt, (set_inQueue s' [], tr''))).
Proof.
  intros Hl Hne Hmc. split.
  - unfold run_iteration, try_except, run_body, Py.bind, gets, addr_ne.
    simpl. apply Z.eqb_neq in Hne. rewrite Hne, Hmc. simpl. rewrite Hl.
    reflexivity.
  - intros n s' tr' Hr Hq. apply run_loop_drains; assumption.
Qed.

Lemma run_without_listener_witness :
  run_iteration (mkCEMI MC_LDATA_IND PrioLow 0x1102 0x0A0B 6 [])
       (mkLDS 0x1101 [] [] None true ∅ 0, [])
  = (Ok tt, (mkLDS 0x1101 [] [] None true ∅ 0,
             [LWarning "L_GroupDataService.run(): not listener defined"])).
Proof.
  apply (run_without_listener (mkLDS 0x1101 [] [] None true ∅ 0) []
           (mkCEMI MC_LDATA_IND PrioLow 0x1102 0x0A0B 6 []));
    [reflexivity | discriminate | reflexivity].
Defined.

Lemma env_run_cons (f : L_DataService -> L_DataService)
    (env : list (L_DataService -> L_DataService)) (j : nat) (s : L_DataService) :
  env_run (f :: env) (S j) s = env_run env j (f s).
Proof. reflexivity. Qed.

(** [wait_loop] returns at the first state, along the other threads'
    actions, where the transmission no longer waits for its confirm. *)
Lemma wait_loop_sound (r : nat) (env : list (L_DataService -> L_DataService))
    (s s2 : L_DataService) :
  wait_loop r env s = Some s2 ->
  exists k t, s2 = env_run env k s /\ heap s2 !! r = Some t /\
    waitConfirm t = false /\
    (forall j t', (j < k)%nat -> heap (env_run env j s) !! r = Some t' ->
                  waitConfirm t' = true).
Proof.
  revert s. induction env as [|f env IH]; intros s H; simpl in H.
  - destruct (heap s !! r) as [t|] eqn:E; [|discriminate].
    destruct (waitConfirm t) eqn:W; [discriminate|]. injection H as <-.
    exists 0%nat, t. repeat split; auto. intros; lia.
  - destruct (heap s !! r) as [t|] eqn:E; [|discriminate].
    destruct (waitConfirm t) eqn:W.
    + destruct (IH (f s) H) as (k & t2 & -> & H1 & H2 & H3).
      exists (S k), t2. repeat split; auto.
      intros [|j] t' Hj Ht'.
      * unfold env_run in Ht'; simpl in Ht'. congruence.
      * rewrite env_run_cons in Ht'. apply (H3 j t'); [lia|exact Ht'].
    + injection H as <-. exists 0%nat, t. repeat split; auto. intros; lia.
Qed.

(** ... and it does return once such a state is reached. *)
Lemma wait_loop_live (r : nat) (env : list (L_DataService -> L_DataService))
    (s : L_DataService) (k : nat) (t : transmission) :
  (k <= length env)%nat ->
  (forall j, (j < k)%nat -> exists t', heap (env_run env j s) !! r = Some t') ->
  heap (env_run env k s) !! r = Some t -> waitConfirm t = false ->
  exists s2, wait_loop r env s = Some s2.
Proof.
  revert s k. induction env as [|f env IH]; intros s k Hk Hpre Ht Hw.
  - simpl in Hk. assert (k = 0%nat) by lia. subst k.
    unfold env_run in Ht; simpl in *. rewrite Ht, Hw. eauto.
  - destruct k as [|k].
    + unfold env_run in Ht; simpl in *. rewrite Ht, Hw. eauto.
    + simpl. destruct (Hpre 0%nat ltac:(lia)) as [t0 H0].
      unfold env_run in H0; simpl in H0.
      rewrite H0. destruct (waitConfirm t0); [|eauto].
      apply (IH (f s) k); [simpl in Hk; lia| |exact Ht|exact Hw].
      intros j Hj. destruct (Hpre (S j) ltac:(lia)) as [t' Ht'].
      rewrite env_run_cons in Ht'. eauto.
Qed.

(** C5.  [dataReq] sets the frame's source address to the service's
    individual address and changes no other field; it wraps the frame in a
    new [Transmission] (waiting for its confirm) and appends it to the
    outbound queue under the frame's priority; it returns only at the
    first point where that transmission no longer waits for its confirm,
    with the transmission's result, and it does return once that point is
    reached. *)
Theorem dataReq_spec (cEMI : cemi) (env : list (L_DataService -> L_DataService))
    (s : L_DataService) :
  let '(c', r, s1) := dataReq_enqueue cEMI s in
  sourceAddress c' = individualAddress s /\
  messageCode c' = messageCode cEMI /\ priority c' = priority cEMI /\
  destinationAddress c' = destinationAddress cEMI /\
  hopCount c' = hopCount cEMI /\ npdu c' = npdu cEMI /\
  heap s1 !! r = Some (Transmission (frame c')) /\
  waitConfirm (Transmission (frame c')) = true /\
  outQueue s1 = outQueue s ++ [(r, priority cEMI)] /\
  (forall c'' res s2, dataReq cEMI env s = Some (c'', res, s2) ->
     c'' = c' /\
     exists k t, s2 = env_run env k s1 /\ heap s2 !! r = Some t /\
       waitConfirm t = false /\ result t = res /\
       (forall j t', (j < k)%nat -> heap (env_run env j s1) !! r = Some t' ->
                     waitConfirm t' = true)) /\
  (forall k t, (k <= length env)%nat ->
     (forall j, (j < k)%nat -> exists t', heap (env_run env j s1) !! r = Some t') ->
     heap (env_run env k s1) !! r = Some t -> waitConfirm t = false ->
     exists res s2, dataReq cEMI env s = Some (c', res, s2)).
Proof.
  unfold dataReq. destruct (dataReq_enqueue cEMI s) as [[c' r] s1] eqn:E.
  unfold dataReq_enqueue in E. injection E as Ec Er Es.
  subst c' r s1. simpl.
  do 6 (split; [reflexivity|]).
  split; [rewrite lookup_insert_eq; reflexivity|].
  do 2 (split; [reflexivity|]).
  split.
  - intros c'' res s2 H.
    destruct (wait_loop _ _ _) as [s3|] eqn:W; [|discriminate].
    destruct (heap s3 !! next_ref s) as [t3|] eqn:T3; [|discriminate].
    injection H as <- <- <-. split; [reflexivity|].
    destruct (wait_loop_sound _ _ _ _ W) as (k & t & -> & H1 & H2 & H3).
    exists k, t. rewrite H1 in T3. injection T3 as <-. auto.
  - intros k t Hk Hpre Ht Hw.
    destruct (wait_loop_live _ _ _ k t Hk Hpre Ht Hw) as [s2 W]. rewrite W.
    destruct (wait_loop_sound _ _ _ _ W) as (k' & t' & _ & H1 & _).
    rewrite H1. eauto.
Qed.

Lemma dataReq_spec_witness :
  exists res s2,
    dataReq (mkCEMI MC_LDATA_REQ PrioLow 0 0x0A0B 6 [0; 0x80])
      [fun s => mkLDS (individualAddress s) (inQueue s) (outQueue s) (ldl s)
                  (running s)
                  (<[0%nat := mkTransmission
                                (mkCEMI MC_LDATA_REQ PrioLow 0x1101 0x0A0B 6 [0; 0x80])
                                false TrOk]> (heap s))
                  (next_ref s)]
      (mkLDS 0x1101 [] [] None true ∅ 0)
    = Some (mkCEMI MC_LDATA_REQ PrioLow 0x1101 0x0A0B 6 [0; 0x80], res, s2).
Proof.
  pose proof (dataReq_spec (mkCEMI MC_LDATA_REQ PrioLow 0 0x0A0B 6 [0; 0x80])
      [fun s => mkLDS (individualAddress s) (inQueue s) (outQueue s) (ldl s)
                  (running s)
                  (<[0%nat := mkTransmission
                                (mkCEMI MC_LDATA_REQ PrioLow 0x1101 0x0A0B 6 [0; 0x80])
                                false TrOk]> (heap s))
                  (next_ref s)]
      (mkLDS 0x1101 [] [] None true ∅ 0)) as H.
  simpl in H. destruct H as (_ & _ & _ & _ & _ & _ & _ & _ & _ & _ & Hlive).
  apply (Hlive 1%nat (mkTransmission
                        (mkCEMI MC_LDATA_REQ PrioLow 0x1101 0x0A0B 6 [0; 0x80])
                        false TrOk)).
  - simpl. lia.
  - intros j Hj. assert (j = 0%nat) by lia. subst j. vm_compute. eauto.
  - vm_compute. reflexivity.
  - reflexivity.
Defined.

(** One turn of the worker with a listener set, as a trace. *)
Lemma run_iteration_listener (s : L_DataService) (tr : list laction) (c : cemi)
    (l : listener) :
  ldl s = Some l ->
  run_iteration c (s, tr) = (Ok tt, (s, tr ++ turn_trace (individualAddress s) l c)).
Proof.
  intros Hl. unfold run_iteration, try_except, run_body, Py.bind, gets, turn_trace.
  simpl. destruct (addr_ne _ _); simpl; [|rewrite app_nil_r; reflexivity].
  destruct (Z.eqb (messageCode c) MC_LDATA_IND); simpl; [|rewrite app_nil_r; reflexivity].
  rewrite Hl. unfold dataInd, Py.bind, log, modify, ret, raise. simpl.
  destruct (ldl_dataInd l c); simpl; rewrite ?app_nil_r, <- ?app_assoc; reflexivity.
Qed.

Lemma run_loop_listener_trace (n : nat) (s : L_DataService) (tr : list laction)
    (l : listener) :
  running s = true -> ldl s = Some l -> (length (inQueue s) <= n)%nat ->
  run_loop n (s, tr) =
    (Ok tt, (set_inQueue s [],
             tr ++ flat_map (turn_trace (individualAddress s) l) (inQueue s))).
Proof.
  revert s tr. induction n as [|n IH]; intros s tr Hr Hl Hq.
  - destruct (inQueue s) eqn:E; simpl in Hq; [|lia].
    destruct s; simpl in *; subst; rewrite app_nil_r; reflexivity.
  - simpl. unfold Py.bind at 1, gets. simpl. rewrite Hr.
    destruct (inQueue s) as [|c q] eqn:E.
    + destruct s; simpl in *; subst; rewrite app_nil_r; reflexivity.
    + unfold Py.bind at 1, modify. simpl.
      unfold Py.bind at 1.
      rewrite (run_iteration_listener (set_inQueue s q) tr c l)
        by (destruct s; exact Hl).
      rewrite IH; [| destruct s; exact Hr | destruct s; exact Hl
                   | simpl in Hq; destruct s; simpl in *; lia].
      rewrite set_inQueue_twice, <- app_assoc. destruct s; reflexivity.
Qed.

Lemma ind_calls_app (t1 t2 : list laction) :
  ind_calls (t1 ++ t2) = ind_calls t1 ++ ind_calls t2.
Proof. unfold ind_calls. apply List.filter_app. Qed.

Lemma ind_calls_turns (ia : Z) (l : listener) (q : list cemi) :
  ind_calls (flat_map (turn_trace ia l) q) = map (LDataInd (ldl_id l)) (delivered ia q).
Proof.
  induction q as [|c q IH]; [reflexivity|].
  simpl. rewrite ind_calls_app, IH. unfold turn_trace, delivered. simpl.
  destruct (addr_ne (sourceAddress c) ia && Z.eqb (messageCode c) MC_LDATA_IND);
    [|reflexivity].
  destruct (ldl_dataInd l c); reflexivity.
Qed.

(** [L_DataService.run] with a listener set drains the whole inbound
    queue in one go and ends normally: the listener's [dataInd] is called
    on the foreign [L_Data.ind] frames, in queue order, and a frame on
    which [dataInd] raises only adds the exception record, the later
    frames are still delivered. *)
Theorem run_delivers_in_order (n : nat) (s : L_DataService) (tr : list laction)
    (l : listener) :
  ldl s = Some l -> (length (inQueue s) <= n)%nat ->
  let '(r, (s', tr')) := run n (s, tr) in
  r = Ok tt /\ inQueue s' = [] /\ running s' = true /\
  tr' = tr ++ flat_map (turn_trace (individualAddress s) l) (inQueue s) /\
  ind_calls tr' = ind_calls tr ++
                  map (LDataInd (ldl_id l)) (delivered (individualAddress s) (inQueue s)).
Proof.
  intros Hl Hq. unfold run, Py.bind at 1, modify. simpl.
  rewrite (run_loop_listener_trace n (set_running s true) tr l)
    by (destruct s; simpl in *; auto).
  destruct s; simpl.
  repeat split. rewrite ind_calls_app, ind_calls_turns. reflexivity.
Qed.

Lemma run_delivers_in_order_witness :
  let s := mkLDS 0x1101
             [mkCEMI MC_LDATA_IND PrioLow 0x1102 0x0A0B 6 [];
              mkCEMI MC_LDATA_IND PrioLow 0x1101 0x0A0B 6 [];
              mkCEMI MC_LDATA_CON PrioLow 0x1103 0x0A0B 6 [];
              mkCEMI MC_LDATA_IND PrioLow 0x1104 0x0A0B 6 []]
             [] (Some (mkListener 7 (fun _ => Some (UserError 1)))) false ∅ 0 in
  ind_calls (snd (snd (run 4 (s, []))))
  = [LDataInd 7 (mkCEMI MC_LDATA_IND PrioLow 0x1102 0x0A0B 6 []);
     LDataInd 7 (mkCEMI MC_LDATA_IND PrioLow 0x1104 0x0A0B 6 [])].
Proof.
  pose proof (run_delivers_in_order 4
    (mkLDS 0x1101
       [mkCEMI MC_LDATA_IND PrioLow 0x1102 0x0A0B 6 [];
        mkCEMI MC_LDATA_IND PrioLow 0x1101 0x0A0B 6 [];
        mkCEMI MC_LDATA_CON PrioLow 0x1103 0x0A0B 6 [];
        mkCEMI MC_LDATA_IND PrioLow 0x1104 0x0A0B 6 []]
       [] (Some (mkListener 7 (fun _ => Some (UserError 1)))) false ∅ 0)
    [] (mkListener 7 (fun _ => Some (UserError 1))) eq_refl ltac:(simpl; lia)) as H.
  cbv zeta. destruct (run 4 _) as [r [s' tr']]. destruct H as (_ & _ & _ & _ & H).
  simpl. rewrite H. reflexivity.
Defined.

(** [run] sets [_running] itself, so a [stop] that comes before the
    worker starts has no effect: the worker then runs as if [stop] had
    never been called. *)
Theorem stop_before_run_ignored (n : nat) (s : L_DataService) (tr : list laction) :
  (stop ;;; run n) (s, tr) = run n (s, tr).
Proof. unfold stop, run, Py.bind, modify. simpl. destruct s; reflexivity. Qed.

End LinkFacts.

(* ================================================================== *)
(** * Multicast sockets: properties *)

Module McastSockFacts.
Import McastSock.

Example transmit_socket_calls :
  calls (snd (MulticastSocketTransmit_init
                (mkSystem false (fun _ _ => None) (fun _ _ => None))
                "192.168.1.10" 3671 "224.0.23.12" 3671 None None fresh_socket))
  = [SetSockOpt SOL_SOCKET SO_REUSEADDR 1;
     LogException "MulticastSocketBase.__init__(): system doesn't support SO_REUSEPORT";
     SetSockOpt SOL_IP IP_MULTICAST_TTL 32;
     SetSockOpt SOL_IP IP_MULTICAST_LOOP 1;
     Bind "192.168.1.10" 3671].
Proof. reflexivity. Qed.

Example transmit_socket_bad_port :
  fst (MulticastSocketTransmit_init permissive_system "192.168.1.10" 70000
         "224.0.23.12" 3671 None None fresh_socket)
  = Raise (OverflowError "bind(): port must be 0-65535.").
Proof. reflexivity. Qed.

Lemma c_int_error_ttl (v : Z) : ttl_ok v = true -> c_int_error v = None.
Proof.
  unfold ttl_ok, c_int_error, INT_MIN, INT_MAX. intros H.
  apply andb_true_iff in H as [H1 H2]. apply Z.leb_le in H1, H2.
  destruct (v <? -2147483648) eqn:E1; [apply Z.ltb_lt in E1; lia|].
  destruct (2147483647 <? v) eqn:E2; [apply Z.ltb_lt in E2; lia|].
  reflexivity.
Qed.

Lemma c_int_error_int_ok (v : Z) : int_ok v = true -> c_int_error v = None.
Proof. unfold int_ok. destruct (c_int_error v); [discriminate | reflexivity]. Qed.

(** The base initialisation, when the TTL and loop values are accepted:
    the options are set, then the subclass's [_bind] runs. *)
Lemma base_init_run (sys : system) (bind_ : SM unit) (localAddr : string)
    (localPort ttl loop : Z) (s : msocket) :
  ttl_ok ttl = true -> int_ok loop = true ->
  MulticastSocketBase_init sys bind_ localAddr localPort ttl loop s =
  bind_ (mkSock localAddr localPort ttl loop (_mcastAddr s) (_mcastPort s)
           (calls s ++ base_calls sys ttl loop)).
Proof.
  intros Ht Hl.
  pose proof (c_int_error_ttl ttl Ht) as Hct.
  pose proof (c_int_error_int_ok loop Hl) as Hcl.
  assert (H1 : c_int_error 1 = None) by reflexivity.
  unfold MulticastSocketBase_init, base_calls, setsockopt, try_except, call,
    Py.bind, modify, raise.
  rewrite H1, Hct, Hcl, Ht.
  destruct (sys_reuseport sys); cbn; rewrite <- !app_assoc; reflexivity.
Qed.

Lemma sock_bind_run (sys : system) (addr : string) (port : Z) (s : msocket) :
  sock_bind sys addr port s =
  match bind_error sys addr port with
  | Some e => (Raise e, s)
  | None => (Ok tt, mkSock (_localAddr s) (_localPort s) (_ttl s) (_loop s)
                       (_mcastAddr s) (_mcastPort s) (calls s ++ [Bind addr port]))
  end.
Proof. unfold sock_bind. destruct (bind_error sys addr port); reflexivity. Qed.

(** The transmit constructor when the TTL and loop values are accepted:
    the outcome is decided by the bind. *)
Lemma transmit_init_run (sys : system) (localAddr : string) (localPort : Z)
    (mcastAddr : string) (mcastPort : Z) (ttl loop : option Z) (s : msocket) :
  ttl_ok (default 32 ttl) = true -> int_ok (default 1 loop) = true ->
  MulticastSocketTransmit_init sys localAddr localPort mcastAddr mcastPort
    ttl loop s =
  let opts := calls s ++ base_calls sys (default 32 ttl) (default 1 loop) in
  match bind_error sys localAddr localPort with
  | None =>
      (Ok tt, mkSock localAddr localPort (default 32 ttl) (default 1 loop)
                mcastAddr mcastPort (opts ++ [Bind localAddr localPort]))
  | Some e =>
      (Raise e, mkSock localAddr localPort (default 32 ttl) (default 1 loop)
                  (_mcastAddr s) (_mcastPort s) opts)
  end.
Proof.
  intros Ht Hl.
  unfold MulticastSocketTransmit_init, Py.bind at 1.
  rewrite base_init_run by assumption.
  unfold transmit_bind, Py.bind at 1, gets. cbv beta iota.
  cbn [id _localAddr _localPort]. rewrite sock_bind_run. cbv zeta.
  destruct (bind_error sys localAddr localPort); reflexivity.
Qed.

(** C7 (counterexample).  With the default parameters the transmit
    socket does not disable multicast loopback: the claim (TTL 32 and
    [IP_MULTICAST_LOOP] set to 0) fails on a concrete construction. *)
Lemma transmit_socket_loop_counterexample :
  ~ (let s := snd (MulticastSocketTransmit_init permissive_system "192.168.1.10"
                     3671 "224.0.23.12" 3671 None None fresh_socket) in
     sockopt_value (calls s) SOL_IP IP_MULTICAST_TTL = Some 32 /\
     sockopt_value (calls s) SOL_IP IP_MULTICAST_LOOP = Some 0).
Proof. simpl. intros [_ H]. discriminate H. Qed.

(** C7 (amended).  A transmit socket built with the default parameters
    ([ttl=32, loop=1]) gets TTL 32 and multicast loopback enabled
    ([IP_MULTICAST_LOOP] = 1): both options are set before the bind, so
    this holds whether or not the system supports [SO_REUSEPORT] and
    whether the bind then succeeds or raises. *)
Theorem transmit_socket_defaults (sys : system) (localAddr : string)
    (localPort : Z) (mcastAddr : string) (mcastPort : Z) :
  let s := snd (MulticastSocketTransmit_init sys localAddr localPort
                  mcastAddr mcastPort None None fresh_socket) in
  _ttl s = 32 /\ _loop s = 1 /\
  sockopt_value (calls s) SOL_IP IP_MULTICAST_TTL = Some 32 /\
  sockopt_value (calls s) SOL_IP IP_MULTICAST_LOOP = Some 1.
Proof.
  rewrite transmit_init_run by reflexivity. cbv zeta.
  destruct (bind_error sys localAddr localPort), (sys_reuseport sys);
    cbn; repeat split.
Qed.

(** C8 (counterexample).  A send that reports 0 bytes for a 2-byte
    datagram is a partial send, yet [transmit] returns normally: no
    [TransceiverError] (nor any exception) is raised. *)
Lemma transmit_zero_sent_counterexample :
  fst (transmit [0x06; 0x10] 0 (mkSock "192.168.1.10" 3671 32 1 "224.0.23.12" 3671 []))
    = Ok tt /\
  ~ (exists msg, fst (transmit [0x06; 0x10] 0
                        (mkSock "192.168.1.10" 3671 32 1 "224.0.23.12" 3671 []))
                 = Raise (TransceiverError msg)).
Proof. split; [reflexivity|]. intros [msg H]. discriminate H. Qed.

(** C8 (amended).  [transmit(data)] sends the datagram to the multicast
    group; when the send reports [l] bytes with [0 < l < len(data)] it
    raises an [IOError] ("partial transmit"), when it reports [l <= 0] or
    [l >= len(data)] it returns normally; it never raises
    [TransceiverError]. *)
Theorem transmit_partial_send (data : list Z) (sent : Z) (s : msocket) :
  let '(r, s') := transmit data sent s in
  calls s' = calls s ++ [SendTo data (_mcastAddr s) (_mcastPort s)] /\
  (0 < sent < Z.of_nat (length data) -> exists msg, r = Raise (IOError msg)) /\
  (sent <= 0 \/ Z.of_nat (length data) <= sent -> r = Ok tt) /\
  (forall msg, r <> Raise (TransceiverError msg)).
Proof.
  unfold transmit, Py.bind, gets, call, modify, raise, ret. simpl.
  destruct ((0 <? sent) && (sent <? Z.of_nat (length data))) eqn:E.
  - apply andb_true_iff in E as [E1 E2].
    apply Z.ltb_lt in E1, E2.
    repeat split; [eauto | lia | discriminate].
  - apply andb_false_iff in E.
    repeat split.
    + intros [H1 H2]. destruct E as [E|E]; apply Z.ltb_ge in E; lia.
    + discriminate.
Qed.





(** [transmit] on a freshly built transmit socket (its constructor
    returned: TTL in -1..255, loop value a C [int], bind accepted) sends
    the datagram to the group address and port given to the constructor
    (not to the local address it is bound to), and changes nothing else
    on the socket. *)
Theorem transmit_targets_group (sys : system) (localAddr : string) (localPort : Z)
    (mcastAddr : string) (mcastPort : Z) (ttl loop : option Z) (s : msocket)
    (data : list Z) (sent : Z) :
  ttl_ok (default 32 ttl) = true -> int_ok (default 1 loop) = true ->
  bind_error sys localAddr localPort = None ->
  let s1 := snd (MulticastSocketTransmit_init sys localAddr localPort
                   mcastAddr mcastPort ttl loop s) in
  snd (transmit data sent s1) =
  mkSock localAddr localPort (default 32 ttl) (default 1 loop) mcastAddr mcastPort
    (calls s1 ++ [SendTo data mcastAddr mcastPort]).
Proof.
  intros Ht Hl Hb.
  rewrite transmit_init_run by assumption. cbv zeta. rewrite Hb. simpl.
  unfold transmit, call, Py.bind, gets, modify, raise, ret. simpl.
  destruct ((0 <? sent) && (sent <? Z.of_nat (length data))); reflexivity.
Qed.

Lemma transmit_targets_group_witness :
  snd (transmit [0x06; 0x10] 2
         (snd (MulticastSocketTransmit_init permissive_system "192.168.1.10" 3671
                 "224.0.23.12" 3671 None None fresh_socket)))
  = mkSock "192.168.1.10" 3671 32 1 "224.0.23.12" 3671
      [SetSockOpt SOL_SOCKET SO_REUSEADDR 1; SetSockOpt SOL_SOCKET SO_REUSEPORT 1;
       SetSockOpt SOL_IP IP_MULTICAST_TTL 32; SetSockOpt SOL_IP IP_MULTICAST_LOOP 1;
       Bind "192.168.1.10" 3671; SendTo [0x06; 0x10] "224.0.23.12" 3671].
Proof.
  rewrite (transmit_targets_group permissive_system "192.168.1.10" 3671
             "224.0.23.12" 3671 None None fresh_socket [0x06; 0x10] 2
             eq_refl eq_refl eq_refl).
  reflexivity.
Defined.

(** A receive socket for an address whose first byte is not in
    [224..239] is refused with [McastSockValueError] before anything is
    done on the socket. *)
Theorem receive_rejects_non_multicast (inet_aton : string -> option (list Z))
    (sys : system) (localAddr mcastAddr : string) (mcastPort : Z)
    (timeout ttl loop : option Z) (st : msocket * list recv_call) (packed : list Z) :
  inet_aton mcastAddr = Some packed -> is_multicast packed = false ->
  MulticastSocketReceive_init inet_aton sys localAddr mcastAddr mcastPort
    timeout ttl loop st
  = (Raise (McastSockValueError "address is not a multicast destination"), st).
Proof.
  intros Ha Hm. unfold MulticastSocketReceive_init, aton, Py.bind at 1.
  rewrite Ha. unfold ret. rewrite Hm. reflexivity.
Qed.

Lemma receive_rejects_non_multicast_witness :
  MulticastSocketReceive_init
    (fun a => if String.eqb a "10.0.0.1" then Some [10; 0; 0; 1] else None)
    permissive_system "192.168.1.10" "10.0.0.1" 3671 None None None (fresh_socket, [])
  = (Raise (McastSockValueError "address is not a multicast destination"),
     (fresh_socket, [])).
Proof.
  apply (receive_rejects_non_multicast _ _ _ _ _ _ _ _ _ [10; 0; 0; 1]);
    reflexivity.
Defined.

(** A group address that [inet_aton] cannot parse makes the constructor
    raise its error before anything is done on the socket. *)
Theorem receive_rejects_bad_group (inet_aton : string -> option (list Z))
    (sys : system) (localAddr mcastAddr : string) (mcastPort : Z)
    (timeout ttl loop : option Z) (st : msocket * list recv_call) :
  inet_aton mcastAddr = None ->
  MulticastSocketReceive_init inet_aton sys localAddr mcastAddr mcastPort
    timeout ttl loop st
  = (Raise (IOError "illegal IP address string passed to inet_aton"), st).
Proof.
  intros Ha. unfold MulticastSocketReceive_init, aton, Py.bind at 1.
  rewrite Ha. reflexivity.
Qed.

Lemma receive_rejects_bad_group_witness :
  MulticastSocketReceive_init (fun _ => None)
    permissive_system "192.168.1.10" "not-an-address" 3671 None None None
    (fresh_socket, [])
  = (Raise (IOError "illegal IP address string passed to inet_aton"),
     (fresh_socket, [])).
Proof. apply receive_rejects_bad_group. reflexivity. Defined.



(** When the local address cannot be parsed, the receive constructor
    (with a TTL in -1..255, a loop value that fits a C [int] and a bind
    the system accepts) raises only after the socket is configured and
    bound: no interface is selected, the group is not joined and no
    timeout is set. *)
Theorem receive_bad_local_fails_after_bind (inet_aton : string -> option (list Z))
    (sys : system) (localAddr mcastAddr : string) (mcastPort : Z)
    (timeout ttl loop : option Z) (s : msocket) (rc : list recv_call)
    (group : list Z) :
  inet_aton mcastAddr = Some group -> is_multicast group = true ->
  inet_aton localAddr = None ->
  ttl_ok (default 32 ttl) = true -> int_ok (default 1 loop) = true ->
  bind_error sys "" mcastPort = None ->
  MulticastSocketReceive_init inet_aton sys localAddr mcastAddr mcastPort
    timeout ttl loop (s, rc)
  = (Raise (IOError "illegal IP address string passed to inet_aton"),
     (mkSock localAddr mcastPort (default 32 ttl) (default 1 loop) mcastAddr
        (_mcastPort s)
        (calls s ++ base_calls sys (default 32 ttl) (default 1 loop) ++
         [Bind "" mcastPort]),
      rc)).
Proof.
  intros Hg Hm Hl Ht Hlp Hb.
  unfold MulticastSocketReceive_init, aton, Py.bind at 1. rewrite Hg.
  unfold ret at 1. rewrite Hm. simpl.
  unfold lift at 1, Py.bind at 1, modify at 1. simpl.
  unfold lift at 1, Py.bind at 1. rewrite base_init_run by assumption.
  unfold receive_bind, Py.bind at 1, gets. cbv beta iota.
  cbn [id _localPort]. rewrite sock_bind_run, Hb. cbn.
  unfold Py.bind, gets. cbn. rewrite Hl. unfold raise. cbn.
  rewrite <- !app_assoc. reflexivity.
Qed.

Lemma receive_bad_local_fails_after_bind_witness :
  fst (MulticastSocketReceive_init
         (fun a => if String.eqb a "224.0.23.12" then Some [224; 0; 23; 12] else None)
         (mkSystem false (fun _ _ => None) (fun _ _ => None))
         "eth0" "224.0.23.12" 3671 None None None (fresh_socket, []))
  = Raise (IOError "illegal IP address string passed to inet_aton").
Proof.
  rewrite (receive_bad_local_fails_after_bind
             (fun a => if String.eqb a "224.0.23.12" then Some [224; 0; 23; 12] else None)
             (mkSystem false (fun _ _ => None) (fun _ _ => None))
             "eth0" "224.0.23.12" 3671 None None None fresh_socket []
             [224; 0; 23; 12] eq_refl eq_refl eq_refl eq_refl eq_refl eq_refl).
  reflexivity.
Defined.

End McastSockFacts.

(* ================================================================== *)
(** * Notifier: properties *)

Module NotifFacts.
Import Notif.

(** The trace of the dispatch loop, handler entry by handler entry; the
    loop itself never raises and changes neither table. *)
Lemma notify_loop_trace (beh : behaviour) (dp : string) (oldValue newValue : pyvalue)
    (jobs : list job) (st : notifier) :
  notify_loop beh dp oldValue newValue jobs st =
    (Ok tt, mkNotifier (_pendingFuncs st) (_datapointJobs st)
              (ntrace st ++ flat_map (job_trace beh dp oldValue newValue) jobs)).
Proof.
  revert st. induction jobs as [|[[m c] t] rest IH]; intros st.
  - destruct st; simpl; rewrite app_nil_r; reflexivity.
  - cbn [notify_loop flat_map]. unfold job_trace, fires.
    destruct ((py_ne oldValue newValue && String.eqb c "change")
              || String.eqb c "always").
    + destruct t.
      * unfold Py.bind, try_except, start_new_thread, lookup_global, raise,
          nlog, modify. simpl. rewrite IH. simpl. rewrite <- ?app_assoc.
        reflexivity.
      * unfold Py.bind, try_except, _execute, nlog, modify, ret, raise. simpl.
        destruct (beh m _); simpl; rewrite IH; simpl;
          rewrite <- ?app_assoc; reflexivity.
    + unfold Py.bind, ret. rewrite IH. reflexivity.
Qed.

Lemma datapointNotify_trace (beh : behaviour) (obj : pyobj) (dp : string)
    (oldValue newValue : pyvalue) (st : notifier) :
  datapointNotify beh obj dp oldValue newValue st =
    (Ok tt, mkNotifier (_pendingFuncs st) (_datapointJobs st)
       (ntrace st ++
        match _datapointJobs st !! obj_id obj with
        | Some d =>
            match d !! dp with
            | Some l => flat_map (job_trace beh dp oldValue newValue) l
            | None => []
            end
        | None => []
        end)).
Proof.
  unfold datapointNotify, Py.bind, gets.
  destruct (_datapointJobs st !! obj_id obj) as [d|];
    [destruct (d !! dp) as [l|]|];
    [apply notify_loop_trace| |];
    destruct st; simpl; rewrite app_nil_r; reflexivity.
Qed.

Lemma handler_calls_app (t1 t2 : list naction) :
  handler_calls (t1 ++ t2) = handler_calls t1 ++ handler_calls t2.
Proof. unfold handler_calls. apply List.flat_map_app. Qed.

Lemma exec_logs_app (t1 t2 : list naction) :
  exec_logs (t1 ++ t2) = (exec_logs t1 + exec_logs t2)%nat.
Proof. unfold exec_logs. rewrite List.filter_app, List.length_app. reflexivity. Qed.

Lemma raising_calls_app (beh : behaviour) (t1 t2 : list naction) :
  raising_calls beh (t1 ++ t2) = (raising_calls beh t1 + raising_calls beh t2)%nat.
Proof.
  unfold raising_calls. rewrite handler_calls_app, List.filter_app, List.length_app.
  reflexivity.
Qed.

Lemma job_trace_calls_indep (beh beh' : behaviour) (dp : string)
    (oldValue newValue : pyvalue) (j : job) :
  handler_calls (job_trace beh dp oldValue newValue j)
  = handler_calls (job_trace beh' dp oldValue newValue j).
Proof.
  destruct j as [[m c] t]. unfold job_trace.
  destruct (fires oldValue newValue c); [|reflexivity].
  destruct t; [reflexivity|]. simpl.
  destruct (beh m _), (beh' m _); reflexivity.
Qed.

Lemma job_trace_logs (beh : behaviour) (dp : string) (oldValue newValue : pyvalue)
    (j : job) :
  exec_logs (job_trace beh dp oldValue newValue j)
  = raising_calls beh (job_trace beh dp oldValue newValue j).
Proof.
  destruct j as [[m c] t]. unfold job_trace.
  destruct (fires oldValue newValue c); [|reflexivity].
  destruct t; [reflexivity|].
  unfold exec_logs, raising_calls, handler_calls. simpl.
  destruct (beh m _); reflexivity.
Qed.

Lemma loop_calls_indep (beh beh' : behaviour) (dp : string)
    (oldValue newValue : pyvalue) (jobs : list job) :
  handler_calls (flat_map (job_trace beh dp oldValue newValue) jobs)
  = handler_calls (flat_map (job_trace beh' dp oldValue newValue) jobs).
Proof.
  induction jobs as [|j rest IH]; [reflexivity|]. simpl.
  rewrite !handler_calls_app, IH, (job_trace_calls_indep beh beh'). reflexivity.
Qed.

Lemma loop_logs (beh : behaviour) (dp : string) (oldValue newValue : pyvalue)
    (jobs : list job) :
  exec_logs (flat_map (job_trace beh dp oldValue newValue) jobs)
  = raising_calls beh (flat_map (job_trace beh dp oldValue newValue) jobs).
Proof.
  induction jobs as [|j rest IH]; [reflexivity|]. simpl.
  rewrite exec_logs_app, raising_calls_app, IH, job_trace_logs. reflexivity.
Qed.

(** C4.  Whatever the handlers do, [datapointNotify] ends normally and
    leaves the handler table as it was; the handlers it calls do not
    depend on which handlers raise (a raising handler never keeps a later
    one from being called), and every call that raised is followed by the
    record logged by [_execute]. *)
Theorem datapointNotify_contains_handler_exceptions (beh beh' : behaviour)
    (obj : pyobj) (dp : string) (oldValue newValue : pyvalue) (st : notifier) :
  let '(r, st1) := datapointNotify beh obj dp oldValue newValue st in
  let '(_, st2) := datapointNotify beh' obj dp oldValue newValue st in
  r = Ok tt /\ _datapointJobs st1 = _datapointJobs st /\
  exists t1 t2, ntrace st1 = ntrace st ++ t1 /\ ntrace st2 = ntrace st ++ t2 /\
    handler_calls t1 = handler_calls t2 /\
    exec_logs t1 = raising_calls beh t1.
Proof.
  rewrite !datapointNotify_trace. simpl.
  split; [reflexivity|]. split; [reflexivity|].
  eexists _, _. split; [reflexivity|]. split; [reflexivity|].
  destruct (_datapointJobs st !! obj_id obj) as [d|]; [|split; reflexivity].
  destruct (d !! dp) as [l|]; [|split; reflexivity].
  split; [apply loop_calls_indep | apply loop_logs].
Qed.

(** With handlers that are not marked [thread], [datapointNotify] calls
    exactly the entries whose condition holds, in table order, each with
    the event record [{name: "datapoint", dp, oldValue, newValue,
    condition, thread}]. *)
Lemma datapointNotify_inline_handlers (beh : behaviour) (obj : pyobj) (dp : string)
    (oldValue newValue : pyvalue) (st : notifier) (d : gmap string (list job))
    (l : list job) :
  _datapointJobs st !! obj_id obj = Some d -> d !! dp = Some l ->
  Forall (fun j : job => j.2 = false) l ->
  handler_calls (ntrace (snd (datapointNotify beh obj dp oldValue newValue st)))
  = handler_calls (ntrace st) ++
    map (fun j : job => (j.1.1, mkEvent "datapoint" dp oldValue newValue j.1.2 j.2))
        (List.filter (fun j : job => fires oldValue newValue j.1.2) l).
Proof.
  intros Hd Hl Hf. rewrite datapointNotify_trace, Hd, Hl. simpl.
  rewrite handler_calls_app. f_equal. clear Hd Hl.
  induction Hf as [|[[m c] t] rest Ht _ IH]; [reflexivity|].
  simpl in Ht. subst t. simpl. rewrite handler_calls_app, IH. unfold job_trace.
  destruct (fires oldValue newValue c); [|reflexivity].
  unfold handler_calls at 1. simpl. destruct (beh m _); reflexivity.
Qed.

(** [thread] is not bound in [notifier.py]: starting a worker always
    raises [NameError] before any worker exists. *)
Lemma start_new_thread_NameError (beh : behaviour) (m : boundmethod) (ev : event)
    (st : notifier) :
  start_new_thread beh m ev st = (Raise (NameError "thread"), st).
Proof. reflexivity. Qed.

(** Inline handlers follow the condition: with two notifications carrying
    equal values, a [change] handler is called zero times and an
    [always] handler twice. *)
Example two_equal_notifications_inline :
  let f := mkFunc 1 "tempChanged" in
  let obj := mkObj 10 "alert" [("tempChanged", AFunc f)] in
  let twice cond :=
    let st0 := snd (doRegisterJobs obj
                 (snd (addDatapointJob f "temp_1" cond false (mkNotifier [] ∅ [])))) in
    let st1 := snd (datapointNotify (fun _ _ => None) obj "temp_1"
                      (PyInt 19) (PyInt 19) st0) in
    snd (datapointNotify (fun _ _ => None) obj "temp_1" (PyInt 19) (PyInt 19) st1) in
  length (handler_calls (ntrace (twice "change"))) = 0%nat /\
  length (handler_calls (ntrace (twice "always"))) = 2%nat.
Proof. split; reflexivity. Qed.

(** C3 (failing input).  A handler registered through the decorator path
    ([addDatapointJob] then [doRegisterJobs]) with condition [always] and
    [thread=True]: two notifications with equal values call it zero
    times (the claim says twice); each dispatch only logs the
    [NameError] on [thread]. *)
Theorem datapointNotify_always_thread_handler_not_called :
  let f := mkFunc 1 "tempChanged" in
  let obj := mkObj 10 "alert" [("tempChanged", AFunc f)] in
  let st0 := snd (doRegisterJobs obj
               (snd (addDatapointJob f "temp_1" "always" true (mkNotifier [] ∅ [])))) in
  let st1 := snd (datapointNotify (fun _ _ => None) obj "temp_1"
                    (PyInt 19) (PyInt 19) st0) in
  let st2 := snd (datapointNotify (fun _ _ => None) obj "temp_1"
                    (PyInt 19) (PyInt 19) st1) in
  _datapointJobs st0 !! 10%nat
    = Some {["temp_1" := [(mkMeth 10 f, "always", true)]]} /\
  handler_calls (ntrace st2) = [] /\
  ntrace st2 = [NLogExc "Notifier.datapointNotify()";
                NLogExc "Notifier.datapointNotify()"].
Proof. split; [reflexivity | split; reflexivity]. Qed.

(** C6 (failing input).  The same [change] handler, notified of a value
    change from 19 to 25: marked [thread=False] it is called once with
    the event record; marked [thread=True] it is never called and the
    dispatch only logs (the [NameError] on [thread]). *)
Theorem datapointNotify_thread_flag_skips_handler :
  let f := mkFunc 1 "tempChanged" in
  let obj := mkObj 10 "alert" [("tempChanged", AFunc f)] in
  let run thr :=
    ntrace (snd (datapointNotify (fun _ _ => None) obj "temp_1" (PyInt 19) (PyInt 25)
             (snd (doRegisterJobs obj
                (snd (addDatapointJob f "temp_1" "change" thr (mkNotifier [] ∅ []))))))) in
  handler_calls (run false)
    = [(mkMeth 10 f, mkEvent "datapoint" "temp_1" (PyInt 19) (PyInt 25) "change" false)] /\
  handler_calls (run true) = [] /\
  run true = [NLogExc "Notifier.datapointNotify()"].
Proof. split; [reflexivity | split; reflexivity]. Qed.

Lemma getattr_method_self (o : pyobj) (n : string) (m : boundmethod) :
  getattr o n = Some (VMethod m) -> meth_self_ m = obj_id o.
Proof.
  unfold getattr. destruct (class_lookup n (obj_class o)) as [[f|]|];
    intros H; try discriminate. injection H as <-. reflexivity.
Qed.

Lemma add_job_other (jobs : gmap nat (gmap string (list job))) (oid : nat)
    (dp : string) (j : job) (k : nat) :
  k <> oid -> add_job jobs oid dp j !! k = jobs !! k.
Proof.
  intros H. unfold add_job.
  destruct (jobs !! oid) as [d|]; [destruct (d !! dp)|];
    rewrite lookup_insert_ne by congruence; reflexivity.
Qed.

Lemma add_job_ok (obj : pyobj) (ps : list pending)
    (jobs : gmap nat (gmap string (list job))) (dp : string) (j : job) :
  jobs_ok obj ps jobs -> job_ok obj ps dp j ->
  jobs_ok obj ps (add_job jobs (obj_id obj) dp j).
Proof.
  intros Hok Hj d dp' l Hd Hl. unfold add_job in Hd.
  destruct (jobs !! obj_id obj) as [d0|] eqn:E0; [destruct (d0 !! dp) as [l0|] eqn:E1|].
  - rewrite lookup_insert_eq in Hd. injection Hd as <-.
    destruct (decide (dp' = dp)) as [->|Hne].
    + rewrite lookup_insert_eq in Hl. injection Hl as <-.
      apply Forall_app. split; [exact (Hok _ _ _ E0 E1) | constructor; auto].
    + rewrite lookup_insert_ne in Hl by congruence. exact (Hok _ _ _ E0 Hl).
  - rewrite lookup_insert_eq in Hd. injection Hd as <-.
    destruct (decide (dp' = dp)) as [->|Hne].
    + rewrite lookup_insert_eq in Hl. injection Hl as <-. constructor; auto.
    + rewrite lookup_insert_ne in Hl by congruence. exact (Hok _ _ _ E0 Hl).
  - rewrite lookup_insert_eq in Hd. injection Hd as <-.
    destruct (decide (dp' = dp)) as [->|Hne].
    + rewrite lookup_singleton_eq in Hl. injection Hl as <-. constructor; auto.
    + rewrite lookup_singleton_ne in Hl by congruence. discriminate.
Qed.

Lemma doRegister_loop_inv (obj : pyobj) (ps : list pending)
    (jobs0 : gmap nat (gmap string (list job))) :
  forall (ps' : list pending) (st : notifier),
  (forall x, In x ps' -> In x ps) ->
  register_inv obj ps jobs0 st ->
  register_inv obj ps jobs0 (snd (doRegister_loop obj ps' st)).
Proof.
  induction ps' as [|[[type_ func] [[dp c] t]] rest IH]; intros st Hin Hinv;
    [exact Hinv|].
  cbn [doRegister_loop]. unfold Py.bind at 1.
  destruct (getattr obj (func_name func)) as [[m|]|] eqn:G.
  - unfold as_method, Py.bind, ret.
    destruct (py_is (meth_func_ m) func) eqn:I; [|apply IH; auto with datatypes].
    destruct (String.eqb type_ "datapoint") eqn:T; [|apply IH; auto with datatypes].
    apply String.eqb_eq in T. subst type_.
    unfold modify. apply IH; [auto with datatypes|].
    destruct Hinv as (Hp & Hok & Hother). destruct st as [p0 j0 tr0]. simpl in *.
    split; [exact Hp|]. split.
    + apply add_job_ok; [exact Hok|]. simpl. split.
      * exact (getattr_method_self _ _ _ G).
      * exists func. split; [apply Hin; left; reflexivity|]. auto.
    + intros k Hk. simpl. rewrite add_job_other by exact Hk. apply Hother, Hk.
  - unfold as_method, raise. exact Hinv.
  - unfold ret. apply IH; auto with datatypes.
Qed.

(** C10.  [doRegisterJobs obj] only adds, under [obj], handler entries
    [(method, condition, thread)] such that [method] is the attribute of
    [obj] named after a function [func] with a pending datapoint
    registration for that datapoint, condition and flag, and the
    function underlying [method] is [func] itself ([is]); it touches no
    other instance and keeps the pending list.  So an instance is bound
    only to methods whose function was decorated: a method of another
    class that merely has the same name is never registered. *)
Theorem doRegisterJobs_binds_decorated_functions (obj : pyobj) (st : notifier) :
  jobs_ok obj (_pendingFuncs st) (_datapointJobs st) ->
  let st' := snd (doRegisterJobs obj st) in
  _pendingFuncs st' = _pendingFuncs st /\
  jobs_ok obj (_pendingFuncs st) (_datapointJobs st') /\
  (forall k, k <> obj_id obj -> _datapointJobs st' !! k = _datapointJobs st !! k).
Proof.
  intros Hok. unfold doRegisterJobs, Py.bind, gets.
  apply (doRegister_loop_inv obj (_pendingFuncs st) (_datapointJobs st)); [auto|].
  split; [reflexivity|]. split; [exact Hok|]. reflexivity.
Qed.

(** A name clash: the pending registration is for [tempChanged] of one
    class (function 1); an instance of another class whose own
    [tempChanged] is function 2 gets no handler. *)
Example doRegisterJobs_name_clash :
  let f1 := mkFunc 1 "tempChanged" in
  let f2 := mkFunc 2 "tempChanged" in
  let obj := mkObj 20 "other" [("tempChanged", AFunc f2)] in
  _datapointJobs (snd (doRegisterJobs obj
     (snd (addDatapointJob f1 "temp_1" "change" false (mkNotifier [] ∅ [])))))
  = ∅.
Proof. reflexivity. Qed.

Lemma doRegisterJobs_binds_decorated_functions_witness :
  let f1 := mkFunc 1 "tempChanged" in
  let f2 := mkFunc 2 "tempChanged" in
  let obj := mkObj 20 "other" [("tempChanged", AFunc f2)] in
  let st := mkNotifier [("datapoint", f1, ("temp_1", "change", false))] ∅ [] in
  jobs_ok obj (_pendingFuncs st) (_datapointJobs st) /\
  _pendingFuncs (snd (doRegisterJobs obj st)) = _pendingFuncs st.
Proof.
  simpl.
  assert (H : jobs_ok (mkObj 20 "other" [("tempChanged", AFunc (mkFunc 2 "tempChanged"))])
                [("datapoint", mkFunc 1 "tempChanged", ("temp_1", "change", false))] ∅).
  { intros d dp l Hd. vm_compute in Hd. discriminate Hd. }
  split; [exact H|].
  exact (proj1 (doRegisterJobs_binds_decorated_functions
                  (mkObj 20 "other" [("tempChanged", AFunc (mkFunc 2 "tempChanged"))])
                  (mkNotifier [("datapoint", mkFunc 1 "tempChanged", ("temp_1", "change", false))] ∅ [])
                  H)).
Defined.

Lemma add_job_jobs_of (jobs : gmap nat (gmap string (list job))) (oid : nat)
    (dp : string) (j : job) (dp' : string) :
  jobs_of (add_job jobs oid dp j) oid dp'
  = jobs_of jobs oid dp' ++ (if String.eqb dp dp' then [j] else []).
Proof.
  unfold jobs_of, add_job.
  destruct (jobs !! oid) as [d|] eqn:E;
    [destruct (d !! dp) as [l|] eqn:E1|]; rewrite lookup_insert_eq;
    destruct (String.eqb_spec dp dp') as [<-|Hne].
  - rewrite lookup_insert_eq, E1. reflexivity.
  - rewrite lookup_insert_ne by exact Hne. rewrite app_nil_r. reflexivity.
  - rewrite lookup_insert_eq, E1. reflexivity.
  - rewrite lookup_insert_ne by exact Hne. rewrite app_nil_r. reflexivity.
  - rewrite lookup_singleton_eq. reflexivity.
  - rewrite lookup_singleton_ne by exact Hne. reflexivity.
Qed.

(** The registration loop, when no pending name resolves to a plain
    attribute of [obj], ends normally, logs nothing, and appends to each
    handler list of [obj] the entries its pending registrations give. *)
Lemma doRegister_loop_appends (obj : pyobj) (ps : list pending) (st : notifier) :
  no_data_clash obj ps ->
  exists jobs',
    doRegister_loop obj ps st = (Ok tt, mkNotifier (_pendingFuncs st) jobs' (ntrace st)) /\
    (forall dp, jobs_of jobs' (obj_id obj) dp
                = jobs_of (_datapointJobs st) (obj_id obj) dp ++ registered obj ps dp) /\
    (forall k, k <> obj_id obj -> jobs' !! k = _datapointJobs st !! k).
Proof.
  revert st. induction ps as [|[[type_ func] [[dp0 c] t]] rest IH]; intros st Hnd.
  - exists (_datapointJobs st). split; [destruct st; reflexivity|].
    split; [intros dp; rewrite app_nil_r; reflexivity | reflexivity].
  - inversion_clear Hnd as [|? ? Hx Hrest]. simpl in Hx.
    cbn [doRegister_loop registered flat_map]. unfold Py.bind at 1.
    destruct (getattr obj (func_name func)) as [[m|]|] eqn:G;
      [|contradiction|].
    + unfold as_method, Py.bind, ret.
      assert (Hm : meth_self_ m = obj_id obj) by exact (getattr_method_self _ _ _ G).
      destruct (py_is (meth_func_ m) func) eqn:I; simpl;
        [destruct (String.eqb type_ "datapoint") eqn:T; simpl|].
      * unfold modify.
        destruct (IH (mkNotifier (_pendingFuncs st)
                        (add_job (_datapointJobs st) (obj_id obj) dp0 (m, c, t))
                        (ntrace st)) Hrest) as (jobs' & E & Hj & Ho).
        exists jobs'. rewrite E. split; [reflexivity|]. split.
        -- intros dp. rewrite Hj. simpl. rewrite add_job_jobs_of, <- app_assoc.
           reflexivity.
        -- intros k Hk. rewrite Ho by exact Hk. simpl. apply add_job_other, Hk.
      * destruct (IH st Hrest) as (jobs' & E & Hj & Ho).
        exists jobs'. unfold ret. rewrite E. auto.
      * destruct (IH st Hrest) as (jobs' & E & Hj & Ho).
        exists jobs'. unfold ret. rewrite E. auto.
    + destruct (IH st Hrest) as (jobs' & E & Hj & Ho).
      exists jobs'. unfold ret. rewrite E. auto.
Qed.

(** The dispatch of [datapointNotify] reads the table through [jobs_of]. *)
Lemma datapointNotify_jobs_of (beh : behaviour) (obj : pyobj) (dp : string)
    (oldValue newValue : pyvalue) (st : notifier) :
  datapointNotify beh obj dp oldValue newValue st =
    (Ok tt, mkNotifier (_pendingFuncs st) (_datapointJobs st)
       (ntrace st ++ flat_map (job_trace beh dp oldValue newValue)
                       (jobs_of (_datapointJobs st) (obj_id obj) dp))).
Proof.
  rewrite datapointNotify_trace. unfold jobs_of.
  destruct (_datapointJobs st !! obj_id obj) as [d|]; [destruct (d !! dp)|];
    reflexivity.
Qed.

(** [doRegisterJobs obj] ends normally (when no pending function is named
    like a plain attribute of [obj]), logs nothing, keeps the pending
    list, and appends to each of [obj]'s handler lists the matching
    pending registrations in pending order: entries already there are
    kept, and nothing is removed or deduplicated. *)
Theorem doRegisterJobs_appends (obj : pyobj) (st : notifier) :
  no_data_clash obj (_pendingFuncs st) ->
  let '(r, st') := doRegisterJobs obj st in
  r = Ok tt /\ _pendingFuncs st' = _pendingFuncs st /\ ntrace st' = ntrace st /\
  (forall dp, jobs_of (_datapointJobs st') (obj_id obj) dp
              = jobs_of (_datapointJobs st) (obj_id obj) dp
                ++ registered obj (_pendingFuncs st) dp).
Proof.
  intros Hnd. unfold doRegisterJobs, Py.bind, gets.
  destruct (doRegister_loop_appends obj (_pendingFuncs st) st Hnd) as (jobs' & E & Hj & _).
  rewrite E. repeat split. exact Hj.
Qed.

Lemma doRegisterJobs_appends_witness :
  let f := mkFunc 1 "tempChanged" in
  let obj := mkObj 10 "alert" [("name", AData); ("tempChanged", AFunc f)] in
  let st := mkNotifier [("datapoint", f, ("temp_1", "change", false))]
              {[10%nat := {["temp_1" := [(mkMeth 10 f, "always", true)]]}]} [] in
  no_data_clash obj (_pendingFuncs st) /\
  jobs_of (_datapointJobs (snd (doRegisterJobs obj st))) 10 "temp_1"
  = [(mkMeth 10 f, "always", true); (mkMeth 10 f, "change", false)].
Proof.
  cbv zeta.
  assert (Hnd : no_data_clash (mkObj 10 "alert" [("name", AData);
                                 ("tempChanged", AFunc (mkFunc 1 "tempChanged"))])
                  [("datapoint", mkFunc 1 "tempChanged", ("temp_1", "change", false))]).
  { constructor; [vm_compute; discriminate | constructor]. }
  split; [exact Hnd|].
  pose proof (doRegisterJobs_appends
    (mkObj 10 "alert" [("name", AData); ("tempChanged", AFunc (mkFunc 1 "tempChanged"))])
    (mkNotifier [("datapoint", mkFunc 1 "tempChanged", ("temp_1", "change", false))]
       {[10%nat := {["temp_1" := [(mkMeth 10 (mkFunc 1 "tempChanged"), "always", true)]]}]}
       []) Hnd) as H.
  destruct (doRegisterJobs _ _) as [r st']. destruct H as (_ & _ & _ & H).
  simpl. rewrite H. reflexivity.
Defined.

(** [doRegisterJobs] has no duplicate check: registering the same
    instance twice makes every later notification call each of its
    newly registered handlers twice. *)
Theorem doRegisterJobs_twice_calls_twice (beh : behaviour) (obj : pyobj) (st : notifier)
    (dp : string) (oldValue newValue : pyvalue) :
  no_data_clash obj (_pendingFuncs st) ->
  let calls l := handler_calls (flat_map (job_trace beh dp oldValue newValue) l) in
  let notified st' := handler_calls (ntrace (snd (datapointNotify beh obj dp
                                                    oldValue newValue st'))) in
  let st1 := snd (doRegisterJobs obj st) in
  let st2 := snd (doRegisterJobs obj st1) in
  notified st1 = handler_calls (ntrace st)
                 ++ calls (jobs_of (_datapointJobs st) (obj_id obj) dp)
                 ++ calls (registered obj (_pendingFuncs st) dp) /\
  notified st2 = handler_calls (ntrace st)
                 ++ calls (jobs_of (_datapointJobs st) (obj_id obj) dp)
                 ++ calls (registered obj (_pendingFuncs st) dp)
                 ++ calls (registered obj (_pendingFuncs st) dp).
Proof.
  intros Hnd. cbv zeta.
  destruct (doRegister_loop_appends obj (_pendingFuncs st) st Hnd) as (J1 & E1 & H1 & _).
  assert (R1 : doRegisterJobs obj st
               = (Ok tt, mkNotifier (_pendingFuncs st) J1 (ntrace st)))
    by exact E1.
  rewrite R1. simpl.
  destruct (doRegister_loop_appends obj (_pendingFuncs st)
              (mkNotifier (_pendingFuncs st) J1 (ntrace st)) Hnd) as (J2 & E2 & H2 & _).
  assert (R2 : doRegisterJobs obj (mkNotifier (_pendingFuncs st) J1 (ntrace st))
               = (Ok tt, mkNotifier (_pendingFuncs st) J2 (ntrace st)))
    by exact E2.
  rewrite R2. rewrite !datapointNotify_jobs_of. simpl.
  rewrite H2. simpl. rewrite H1.
  rewrite !flat_map_app, !handler_calls_app, <- !app_assoc. split; reflexivity.
Qed.

Lemma doRegisterJobs_twice_calls_twice_witness :
  let f := mkFunc 1 "tempChanged" in
  let obj := mkObj 10 "alert" [("tempChanged", AFunc f)] in
  let st := mkNotifier [("datapoint", f, ("temp_1", "change", false))] ∅ [] in
  let st2 := snd (doRegisterJobs obj (snd (doRegisterJobs obj st))) in
  handler_calls (ntrace (snd (datapointNotify (fun _ _ => None) obj "temp_1"
                                (PyInt 19) (PyInt 25) st2)))
  = [(mkMeth 10 f, mkEvent "datapoint" "temp_1" (PyInt 19) (PyInt 25) "change" false);
     (mkMeth 10 f, mkEvent "datapoint" "temp_1" (PyInt 19) (PyInt 25) "change" false)].
Proof.
  cbv zeta.
  assert (Hnd : no_data_clash (mkObj 10 "alert" [("tempChanged", AFunc (mkFunc 1 "tempChanged"))])
                  [("datapoint", mkFunc 1 "tempChanged", ("temp_1", "change", false))]).
  { constructor; [vm_compute; discriminate | constructor]. }
  rewrite (proj2 (doRegisterJobs_twice_calls_twice (fun _ _ => None)
    (mkObj 10 "alert" [("tempChanged", AFunc (mkFunc 1 "tempChanged"))])
    (mkNotifier [("datapoint", mkFunc 1 "tempChanged", ("temp_1", "change", false))] ∅ [])
    "temp_1" (PyInt 19) (PyInt 25) Hnd)).
  vm_compute. reflexivity.
Defined.

(** A notification for an instance or a datapoint with no registered
    handler (a missing key of either table, or an empty list) does
    nothing: no call, no record, no change. *)
Theorem datapointNotify_unregistered (beh : behaviour) (obj : pyobj) (dp : string)
    (oldValue newValue : pyvalue) (st : notifier) :
  jobs_of (_datapointJobs st) (obj_id obj) dp = [] ->
  datapointNotify beh obj dp oldValue newValue st = (Ok tt, st).
Proof.
  intros H. rewrite datapointNotify_jobs_of, H. simpl.
  rewrite app_nil_r. destruct st; reflexivity.
Qed.

Lemma datapointNotify_unregistered_witness :
  let f := mkFunc 1 "tempChanged" in
  let st := mkNotifier [] {[10%nat := {["temp_1" := [(mkMeth 10 f, "always", false)]]}]} [] in
  datapointNotify (fun _ _ => None) (mkObj 10 "alert" []) "temp_2"
    (PyInt 19) (PyInt 25) st = (Ok tt, st).
Proof.
  cbv zeta. apply datapointNotify_unregistered. vm_compute. reflexivity.
Defined.

(** The decorator returns the function itself and queues its
    registration, with the defaults [condition="change"] and
    [thread=False]; [doRegisterJobs] then binds it to any instance whose
    class holds it under its name, after the handlers registered before. *)
Theorem datapoint_then_register (dp : string) (condition : option string)
    (thread : option bool) (f : pyfunc) (obj : pyobj) (st : notifier) :
  (match condition with Some c => c | None => "change" end = "change" \/
   match condition with Some c => c | None => "change" end = "always") ->
  class_lookup (func_name f) (obj_class obj) = Some (AFunc f) ->
  no_data_clash obj (_pendingFuncs st) ->
  let '(r, st1) := datapoint dp condition thread f st in
  r = Ok f /\
  jobs_of (_datapointJobs (snd (doRegisterJobs obj st1))) (obj_id obj) dp
  = jobs_of (_datapointJobs st) (obj_id obj) dp
    ++ registered obj (_pendingFuncs st) dp
    ++ [(mkMeth (obj_id obj) f,
         match condition with Some c => c | None => "change" end,
         match thread with Some t => t | None => false end)].
Proof.
  intros Hc Hcl Hnd.
  set (c := match condition with Some c => c | None => "change" end) in *.
  set (t := match thread with Some t => t | None => false end).
  assert (Hv : (String.eqb c "change" || String.eqb c "always") = true).
  { destruct Hc as [-> | ->]; reflexivity. }
  unfold datapoint, addDatapointJob, Py.bind at 1. fold c t. rewrite Hv.
  unfold modify, Py.bind, ret. simpl. split; [reflexivity|].
  assert (Hg : getattr obj (func_name f) = Some (VMethod (mkMeth (obj_id obj) f))).
  { unfold getattr. rewrite Hcl. reflexivity. }
  assert (Hnd' : no_data_clash obj (_pendingFuncs st ++ [("datapoint", f, (dp, c, t))])).
  { apply Forall_app. split; [exact Hnd|].
    constructor; [simpl; rewrite Hg; discriminate | constructor]. }
  destruct (doRegister_loop_appends obj _
              (mkNotifier (_pendingFuncs st ++ [("datapoint", f, (dp, c, t))])
                 (_datapointJobs st) (ntrace st)) Hnd') as (J' & E & Hj & _).
  unfold doRegisterJobs, Py.bind, gets. simpl. rewrite E. simpl. rewrite Hj. simpl.
  unfold registered at 1. rewrite flat_map_app. fold (registered obj (_pendingFuncs st) dp).
  simpl. rewrite Hg. unfold py_is. simpl. rewrite Nat.eqb_refl, String.eqb_refl.
  simpl. rewrite <- ?app_assoc. reflexivity.
Qed.

Lemma datapoint_then_register_witness :
  let f := mkFunc 2 "doorChanged" in
  let obj := mkObj 10 "alert" [("doorChanged", AFunc f)] in
  jobs_of (_datapointJobs (snd (doRegisterJobs obj
     (snd (datapoint "door_1" None None f (mkNotifier [] ∅ []))))))
     (obj_id obj) "door_1"
  = [(mkMeth 10 f, "change", false)].
Proof.
  cbv zeta.
  pose proof (datapoint_then_register "door_1" None None (mkFunc 2 "doorChanged")
     (mkObj 10 "alert" [("doorChanged", AFunc (mkFunc 2 "doorChanged"))])
     (mkNotifier [] ∅ []) (or_introl eq_refl) eq_refl (List.Forall_nil _)) as H.
  revert H.
  destruct (datapoint "door_1" None None (mkFunc 2 "doorChanged") (mkNotifier [] ∅ []))
    as [r st1].
  intros [_ H]. cbn [snd]. rewrite H. reflexivity.
Defined.

(** A decorator given a condition other than ["change"] and ["always"]
    raises [NotifierValueError] as the class body runs, before anything
    is queued: the function is never registered. *)
Theorem datapoint_invalid_condition (dp c : string) (thread : option bool)
    (f : pyfunc) (st : notifier) :
  c <> "change" -> c <> "always" ->
  datapoint dp (Some c) thread f st
  = (Raise (NotifierValueError "invalid condition"), st).
Proof.
  intros H1 H2. unfold datapoint, addDatapointJob, Py.bind.
  apply String.eqb_neq in H1, H2. rewrite H1, H2. reflexivity.
Qed.

Lemma datapoint_invalid_condition_witness :
  datapoint "temp_1" (Some "changed") None (mkFunc 1 "tempChanged") (mkNotifier [] ∅ [])
  = (Raise (NotifierValueError "invalid condition"), mkNotifier [] ∅ []).
Proof. apply datapoint_invalid_condition; discriminate. Defined.

(** Running the class body of [AlertFB] on a notifier with nothing
    pending, then registering an instance. *)
Lemma AlertFB_setup (st : notifier) (oid : nat) (name_ : string)
    (base : list (string * attr)) :
  _pendingFuncs st = [] ->
  let ps := [("datapoint", Alert.tempChanged, ("temp_2", "change", false));
             ("datapoint", Alert.tempChanged, ("temp_1", "change", false));
             ("datapoint", Alert.doorChanged, ("door_1", "change", false))] in
  let o := mkObj oid name_ (Alert.AlertFB_class Alert.tempChanged Alert.doorChanged base) in
  Alert.AlertFB_body st
    = (Ok (Alert.tempChanged, Alert.doorChanged),
       mkNotifier ps (_datapointJobs st) (ntrace st)) /\
  exists jobs',
    doRegisterJobs o (mkNotifier ps (_datapointJobs st) (ntrace st))
      = (Ok tt, mkNotifier ps jobs' (ntrace st)) /\
    jobs_of jobs' oid "temp_2"
      = jobs_of (_datapointJobs st) oid "temp_2" ++ [(mkMeth oid Alert.tempChanged, "change", false)] /\
    jobs_of jobs' oid "temp_1"
      = jobs_of (_datapointJobs st) oid "temp_1" ++ [(mkMeth oid Alert.tempChanged, "change", false)] /\
    jobs_of jobs' oid "door_1"
      = jobs_of (_datapointJobs st) oid "door_1" ++ [(mkMeth oid Alert.doorChanged, "change", false)].
Proof.
  intros Hp. cbv zeta. destruct st as [p J tr]. simpl in Hp. subst p. split.
  - reflexivity.
  - assert (Hnd : no_data_clash
                    (mkObj oid name_ (Alert.AlertFB_class Alert.tempChanged
                                        Alert.doorChanged base))
                    [("datapoint", Alert.tempChanged, ("temp_2", "change", false));
                     ("datapoint", Alert.tempChanged, ("temp_1", "change", false));
                     ("datapoint", Alert.doorChanged, ("door_1", "change", false))]).
    { repeat constructor; simpl; discriminate. }
    destruct (doRegister_loop_appends _ _ (mkNotifier
       [("datapoint", Alert.tempChanged, ("temp_2", "change", false));
        ("datapoint", Alert.tempChanged, ("temp_1", "change", false));
        ("datapoint", Alert.doorChanged, ("door_1", "change", false))] J tr) Hnd)
      as (J' & E & Hj & _).
    exists J'. split; [exact E|]. simpl in Hj. rewrite !Hj. repeat split.
Qed.

(** The example block [AlertFB]: its class body queues the registrations
    of [tempChanged] (for [temp_2], then [temp_1]) and of [doorChanged]
    (for [door_1]) and leaves both methods unwrapped; registering an
    instance then appends [tempChanged] to its handlers of [temp_1] and
    [temp_2] and [doorChanged] to those of [door_1], all with condition
    ["change"] and not threaded. *)
Theorem AlertFB_registers_handlers (st : notifier) (oid : nat) (name_ : string)
    (base : list (string * attr)) :
  _pendingFuncs st = [] ->
  let o := mkObj oid name_ (Alert.AlertFB_class Alert.tempChanged Alert.doorChanged base) in
  let '(r, st1) := Alert.AlertFB_body st in
  let jobs := _datapointJobs (snd (doRegisterJobs o st1)) in
  r = Ok (Alert.tempChanged, Alert.doorChanged) /\
  jobs_of jobs oid "temp_2"
    = jobs_of (_datapointJobs st) oid "temp_2" ++ [(mkMeth oid Alert.tempChanged, "change", false)] /\
  jobs_of jobs oid "temp_1"
    = jobs_of (_datapointJobs st) oid "temp_1" ++ [(mkMeth oid Alert.tempChanged, "change", false)] /\
  jobs_of jobs oid "door_1"
    = jobs_of (_datapointJobs st) oid "door_1" ++ [(mkMeth oid Alert.doorChanged, "change", false)].
Proof.
  intros Hp. destruct (AlertFB_setup st oid name_ base Hp) as [E1 (J' & E2 & H2 & H1 & H3)].
  cbv zeta. rewrite E1. cbn [snd]. rewrite E2. simpl. auto.
Qed.

Lemma AlertFB_registers_handlers_witness :
  let o := mkObj 10 "alert" (Alert.AlertFB_class Alert.tempChanged Alert.doorChanged []) in
  jobs_of (_datapointJobs (snd (doRegisterJobs o (snd (Alert.AlertFB_body
                                   (mkNotifier [] ∅ [])))))) 10 "temp_1"
  = [(mkMeth 10 Alert.tempChanged, "change", false)].
Proof.
  pose proof (AlertFB_registers_handlers (mkNotifier [] ∅ []) 10 "alert" [] eq_refl) as H.
  cbv zeta in *. revert H.
  destruct (Alert.AlertFB_body (mkNotifier [] ∅ [])) as [r st1].
  intros (_ & _ & H & _). cbn [snd]. rewrite H. reflexivity.
Defined.

(** In [AlertFB], when [temp_1] or [temp_2] of a newly registered
    instance is notified, [tempChanged] is called once, inline, with the
    event record, if the value changed, and not at all if it did not. *)
Theorem AlertFB_temp_notification (beh : behaviour) (st : notifier) (oid : nat)
    (name_ : string) (base : list (string * attr)) (dp : string)
    (oldValue newValue : pyvalue) :
  _pendingFuncs st = [] -> _datapointJobs st !! oid = None ->
  dp = "temp_1" \/ dp = "temp_2" ->
  let o := mkObj oid name_ (Alert.AlertFB_class Alert.tempChanged Alert.doorChanged base) in
  let st2 := snd (doRegisterJobs o (snd (Alert.AlertFB_body st))) in
  handler_calls (ntrace (snd (datapointNotify beh o dp oldValue newValue st2)))
  = handler_calls (ntrace st) ++
    (if py_ne oldValue newValue
     then [(mkMeth oid Alert.tempChanged,
            mkEvent "datapoint" dp oldValue newValue "change" false)]
     else []).
Proof.
  intros Hp Hn Hdp. destruct (AlertFB_setup st oid name_ base Hp) as [E1 (J' & E2 & H2 & H1 & _)].
  cbv zeta. rewrite E1. cbn [snd]. rewrite E2. cbn [snd].
  rewrite datapointNotify_jobs_of. simpl. rewrite handler_calls_app. f_equal.
  assert (Hj : jobs_of J' oid dp = [(mkMeth oid Alert.tempChanged, "change", false)]).
  { unfold jobs_of at 2 in H1. unfold jobs_of at 2 in H2. rewrite Hn in H1, H2.
    destruct Hdp as [-> | ->]; assumption. }
  rewrite Hj. unfold handler_calls, job_trace, fires. simpl.
  destruct (py_ne oldValue newValue); simpl; [|reflexivity].
  destruct (beh _ _); reflexivity.
Qed.

Lemma AlertFB_temp_notification_witness :
  let o := mkObj 10 "alert" (Alert.AlertFB_class Alert.tempChanged Alert.doorChanged []) in
  let st2 := snd (doRegisterJobs o (snd (Alert.AlertFB_body (mkNotifier [] ∅ [])))) in
  handler_calls (ntrace (snd (datapointNotify (fun _ _ => Some (UserError 1)) o "temp_2"
                                (PyInt 19) (PyInt 31) st2)))
  = [(mkMeth 10 Alert.tempChanged,
      mkEvent "datapoint" "temp_2" (PyInt 19) (PyInt 31) "change" false)].
Proof.
  exact (AlertFB_temp_notification (fun _ _ => Some (UserError 1)) (mkNotifier [] ∅ [])
           10 "alert" [] "temp_2" (PyInt 19) (PyInt 31) eq_refl eq_refl
           (or_intror eq_refl)).
Defined.

Lemma datapointNotify_inline_handlers_witness :
  let m := mkMeth 10 (mkFunc 1 "tempChanged") in
  let l : list job := [(m, "change", false); (m, "always", false)] in
  let st := mkNotifier [] {[10%nat := {["temp_1" := l]}]} [] in
  handler_calls (ntrace (snd (datapointNotify (fun _ _ => None) (mkObj 10 "alert" [])
                                "temp_1" (PyInt 19) (PyInt 19) st)))
  = [(m, mkEvent "datapoint" "temp_1" (PyInt 19) (PyInt 19) "always" false)].
Proof.
  cbv zeta.
  rewrite (datapointNotify_inline_handlers (fun _ _ => None) (mkObj 10 "alert" [])
             "temp_1" (PyInt 19) (PyInt 19)
             (mkNotifier [] {[10%nat := {["temp_1" :=
                [(mkMeth 10 (mkFunc 1 "tempChanged"), "change", false);
                 (mkMeth 10 (mkFunc 1 "tempChanged"), "always", false)]]}]} [])
             {["temp_1" := [(mkMeth 10 (mkFunc 1 "tempChanged"), "change", false);
                            (mkMeth 10 (mkFunc 1 "tempChanged"), "always", false)]]}
             [(mkMeth 10 (mkFunc 1 "tempChanged"), "change", false);
              (mkMeth 10 (mkFunc 1 "tempChanged"), "always", false)]).
  - reflexivity.
  - vm_compute. reflexivity.
  - vm_compute. reflexivity.
  - repeat constructor.
Defined.

End NotifFacts.
